(** * chatwork-go: the request and response pipeline of [chatwork.go]

    A shallow embedding of the client's transport pipeline
    ([NewRequestWithContext], [NewFormRequestWithContext], [Do],
    [processResponseBody], [CheckResponse], [APIError.Error]) and of the
    message endpoints built on it ([MessagesService.Create],
    [MessagesService.SendMessage]).

    Go strings and byte slices are sequences of 8-bit bytes; both are
    modelled by [string].  A pointer that may be nil is an [option]; the
    response that [Do] receives is one object that the envelope, the error
    and the decoder share, so the functions that change it return it.  The
    pieces of the Go standard library that the pipeline calls ([io],
    [encoding/json], [net/http] headers, [fmt]) are modelled from their
    sources; [net/url] and the reflective stores of [encoding/json] are
    interfaces, with reference instances to run examples. *)

From Stdlib Require Import ZArith Ascii String List Bool Lia DecimalString.
From stdpp Require Import base option gmap strings list.

Set Warnings "-register-all".
Local Open Scope string_scope.
Local Open Scope Z_scope.

(** ** Errors *)

(** The error values that flow through the pipeline.  [Wrapped p e] is
    [fmt.Errorf(p ++ "%w", e)]. *)
Inductive error : Type :=
  | EOF
  | ErrUnexpectedEOF
  | ErrShortWrite
  | ErrInvalidWrite
  | SyntaxError (msg : string)
  | UnmarshalTypeError (msg : string)
  | InvalidUnmarshalError
  | Wrapped (prefix : string) (e : error)
  | OtherError (msg : string).

Fixpoint Error_string (e : error) : string :=
  match e with
  | EOF => "EOF"
  | ErrUnexpectedEOF => "unexpected EOF"
  | ErrShortWrite => "short write"
  | ErrInvalidWrite => "invalid write result"
  | SyntaxError msg => msg
  | UnmarshalTypeError msg => msg
  | InvalidUnmarshalError => "json: Unmarshal(non-pointer or nil)"
  | Wrapped p e => p ++ Error_string e
  | OtherError msg => msg
  end.

(** [err == io.EOF]. *)
Definition is_EOF (e : error) : bool :=
  match e with
  | EOF => true
  | _ => false
  end.

(** [if err == io.EOF { err = nil }]. *)
Definition EOF_to_nil (e : option error) : option error :=
  match e with
  | Some EOF => None
  | _ => e
  end.

(** ** [io]: readers, writers, [ReadAll] and [Copy] *)

(** A response body is an [io.ReadCloser].  [chunks] are the pieces that the
    successive calls of [Read] will deliver, [rerr] is the error returned
    once they are exhausted ([None] is a clean [io.EOF]); [nreads] counts
    the calls of [Read] made so far and [closed] records [Close]. *)
Record ReadCloser : Type := mkBody {
  chunks : list string;
  rerr : option error;
  nreads : nat;
  closed : bool
}.

(** The bytes of the stream that are still to be delivered. *)
Definition content (b : ReadCloser) : string :=
  fold_right String.append "" (chunks b).

(** One call of [Read]: the next chunk, or the final error. *)
Definition Read (b : ReadCloser) : string * option error * ReadCloser :=
  match chunks b with
  | c :: cs => (c, None, mkBody cs (rerr b) (S (nreads b)) (closed b))
  | [] => ("", Some (default EOF (rerr b)),
           mkBody [] (rerr b) (S (nreads b)) (closed b))
  end.

Definition Close (b : ReadCloser) : ReadCloser :=
  mkBody (chunks b) (rerr b) (nreads b) true.

(** Nothing of the stream is left to deliver. *)
Definition consumed (b : ReadCloser) : bool :=
  match chunks b with
  | [] => true
  | _ :: _ => false
  end.

(** [io.ReadAll]: reads until an error, and reports [io.EOF] as success.
    The slice it returns is allocated with [make], hence never [nil]. *)
Fixpoint readAll_loop (acc : string) (cs : list string) (n : nat)
  : string * nat :=
  match cs with
  | [] => (acc, S n)
  | c :: cs' => readAll_loop (acc ++ c) cs' (S n)
  end.

Definition ReadAll (b : ReadCloser) : option string * option error * ReadCloser :=
  let '(data, n) := readAll_loop "" (chunks b) (nreads b) in
  (Some data, EOF_to_nil (Some (default EOF (rerr b))),
   mkBody [] (rerr b) n (closed b)).

(** An [io.Writer]: [Write w p] returns the new state of the writer, the
    number of bytes it reports written and its error.  [received] is what
    the writer has taken so far. *)
Class Writer (W : Type) : Type := {
  Write : W -> string -> W * Z * option error;
  received : W -> string
}.

(** The contract of [Write]: a writer that reports [n] bytes of [p] has
    taken exactly the first [n] bytes of [p]. *)
Definition Writer_contract (W : Type) `{Writer W} : Prop :=
  forall (w : W) (p : string) (w' : W) (n : Z) (e : option error),
    Write w p = (w', n, e) ->
    0 <= n <= Z.of_nat (String.length p) ->
    received w' = received w ++ substring 0 (Z.to_nat n) p.

(** [io.Copy] (the loop of [io.copyBuffer]); returns the writer, the number
    of bytes written, the error and the reader as the loop leaves it. *)
Fixpoint copy_loop {W} `{Writer W} (w : W) (written : Z) (cs : list string)
  (re : option error) (n : nat) : W * Z * option error * (list string * nat) :=
  match cs with
  | [] => (w, written, EOF_to_nil (Some (default EOF re)), ([], S n))
  | c :: cs' =>
      let nr := Z.of_nat (String.length c) in
      if 0 <? nr then
        let '(w', nw, ew) := Write w c in
        let '(nw, ew) :=
          if (nw <? 0) || (nr <? nw)
          then (0, Some (default ErrInvalidWrite ew))
          else (nw, ew) in
        match ew with
        | Some e => (w', written + nw, Some e, (cs', S n))
        | None =>
            if negb (nr =? nw)
            then (w', written + nw, Some ErrShortWrite, (cs', S n))
            else copy_loop w' (written + nw) cs' re (S n)
        end
      else copy_loop w written cs' re (S n)
  end.

Definition Copy {W} `{Writer W} (w : W) (b : ReadCloser)
  : W * Z * option error * ReadCloser :=
  let '(w', written, err, (cs, n)) :=
    copy_loop w 0 (chunks b) (rerr b) (nreads b) in
  (w', written, err, mkBody cs (rerr b) n (closed b)).

(** ** [encoding/json]: syntax *)

Inductive json : Type :=
  | JNull
  | JBool (b : bool)
  | JNum (lit : string)
  | JStr (s : string)
  | JArr (elems : list json)
  | JObj (members : list (string * json)).

(** Result of scanning a prefix of the input: a value and the rest of the
    input, the need for more input, or a syntax error. *)
Inductive scan (A : Type) : Type :=
  | Got (a : A) (rest : string)
  | More
  | Bad (msg : string).
Arguments Got {A} a rest.
Arguments More {A}.
Arguments Bad {A} msg.

Definition dquote : ascii := ascii_of_nat 34.
(** [s] between double quotes. *)
Definition quoted (s : string) : string :=
  String dquote (s ++ String dquote "").

Definition is_space (c : ascii) : bool :=
  Ascii.eqb c " " || Ascii.eqb c (ascii_of_nat 9)
  || Ascii.eqb c (ascii_of_nat 10) || Ascii.eqb c (ascii_of_nat 13).
Definition is_digit (c : ascii) : bool :=
  let n := nat_of_ascii c in (48 <=? n)%nat && (n <=? 57)%nat.

Fixpoint skip_space (s : string) : string :=
  match s with
  | String c r => if is_space c then skip_space r else s
  | EmptyString => s
  end.

(** [nonEmpty] of [stream.go]: some byte is not white space. *)
Definition nonEmpty (s : string) : bool :=
  match skip_space s with
  | EmptyString => false
  | String _ _ => true
  end.

Definition hexval (c : ascii) : option N :=
  let n := N_of_ascii c in
  if (48 <=? n)%N && (n <=? 57)%N then Some (n - 48)%N
  else if (97 <=? n)%N && (n <=? 102)%N then Some (n - 87)%N
  else if (65 <=? n)%N && (n <=? 70)%N then Some (n - 55)%N
  else None.

(** [utf8.EncodeRune]. *)
Definition encode_rune (cp : N) : string :=
  let byte (n : N) := ascii_of_N n in
  if (cp <? 128)%N then String (byte cp) ""
  else if (cp <? 2048)%N then
    String (byte (192 + cp / 64)%N) (String (byte (128 + cp mod 64)%N) "")
  else if (cp <? 65536)%N then
    String (byte (224 + cp / 4096)%N)
      (String (byte (128 + (cp / 64) mod 64)%N)
         (String (byte (128 + cp mod 64)%N) ""))
  else
    String (byte (240 + cp / 262144)%N)
      (String (byte (128 + (cp / 4096) mod 64)%N)
         (String (byte (128 + (cp / 64) mod 64)%N)
            (String (byte (128 + cp mod 64)%N) ""))).

(** *** The texts of syntax errors *)

(** One digit of [lowerhex]. *)
Definition lowerhex (n : N) : ascii :=
  if (n <? 10)%N then ascii_of_N (48 + n) else ascii_of_N (87 + n).

(** [strconv.IsPrint] on the runes up to U+00FF. *)
Definition IsPrint (r : N) : bool :=
  ((32 <=? r)%N && (r <=? 126)%N)
  || ((161 <=? r)%N && (r <=? 255)%N && negb (r =? 173)%N).

(** [quoteChar] of [scanner.go]: the byte [c] between single quotes, as
    [strconv.Quote(string(c))] writes the rune of that number (the escapes
    of [appendEscapedRune]; a delete byte is written with [\x]), with the
    two quotes as special cases. *)
Definition quoteChar (c : ascii) : string :=
  let r := N_of_ascii c in
  let single (s : string) : string := "'" ++ s ++ "'" in
  if Ascii.eqb c "'" then "'\''"
  else if Ascii.eqb c dquote then single (String dquote "")
  else if Ascii.eqb c "\" then "'\\'"
  else if IsPrint r then single (encode_rune r)
  else if (r =? 7)%N then "'\a'"
  else if (r =? 8)%N then "'\b'"
  else if (r =? 12)%N then "'\f'"
  else if (r =? 10)%N then "'\n'"
  else if (r =? 13)%N then "'\r'"
  else if (r =? 9)%N then "'\t'"
  else if (r =? 11)%N then "'\v'"
  else if (r <? 32)%N || (r =? 127)%N then
    single ("\x" ++ String (lowerhex (r / 16)) (String (lowerhex (r mod 16)) ""))
  else
    single ("\u00" ++ String (lowerhex (r / 16)) (String (lowerhex (r mod 16)) "")).

(** [scanner.error]: the text of the syntax error for the byte [c]. *)
Definition invalid_character (c : ascii) (context : string) : string :=
  "invalid character " ++ quoteChar c ++ " " ++ context.

(** The input ends in a state of the scanner that does not take a space.
    [eof] tells that the input is known to end here: [scanner.eof] then
    steps on a space, and the error is the one of that space.  Otherwise
    more input is needed. *)
Definition at_end {A} (eof : bool) (context : string) : scan A :=
  if eof then Bad (invalid_character " " context) else More.

Definition in_escape_u : string := "in \u hexadecimal character escape".

(** *** String literals *)

(** A string literal is scanned into bytes and [\u] code units; the code
    units are paired and encoded afterwards.  The cases follow the states
    [stateInString], [stateInStringEsc] and [stateInStringEscU] to
    [stateInStringEscU123]. *)
Fixpoint scan_units (eof : bool) (s : string) (acc : list (ascii + N))
  : scan (list (ascii + N)) :=
  match s with
  | EmptyString => More
  | String c r =>
      if Ascii.eqb c dquote then Got (rev acc) r
      else if Ascii.eqb c "\" then
        match r with
        | EmptyString => at_end eof "in string escape code"
        | String "u" r1 =>
            match r1 with
            | EmptyString => at_end eof in_escape_u
            | String h1 r2 =>
                match hexval h1, r2 with
                | None, _ => Bad (invalid_character h1 in_escape_u)
                | Some _, EmptyString => at_end eof in_escape_u
                | Some x1, String h2 r3 =>
                    match hexval h2, r3 with
                    | None, _ => Bad (invalid_character h2 in_escape_u)
                    | Some _, EmptyString => at_end eof in_escape_u
                    | Some x2, String h3 r4 =>
                        match hexval h3, r4 with
                        | None, _ => Bad (invalid_character h3 in_escape_u)
                        | Some _, EmptyString => at_end eof in_escape_u
                        | Some x3, String h4 r5 =>
                            match hexval h4 with
                            | None => Bad (invalid_character h4 in_escape_u)
                            | Some x4 =>
                                scan_units eof r5
                                  (inr (((x1 * 16 + x2) * 16 + x3) * 16 + x4)%N
                                   :: acc)
                            end
                        end
                    end
                end
            end
        | String e r' =>
            if Ascii.eqb e dquote then scan_units eof r' (inl dquote :: acc)
            else if Ascii.eqb e "\" then scan_units eof r' (inl e :: acc)
            else if Ascii.eqb e "/" then scan_units eof r' (inl e :: acc)
            else if Ascii.eqb e "b"
            then scan_units eof r' (inl (ascii_of_nat 8) :: acc)
            else if Ascii.eqb e "f"
            then scan_units eof r' (inl (ascii_of_nat 12) :: acc)
            else if Ascii.eqb e "n"
            then scan_units eof r' (inl (ascii_of_nat 10) :: acc)
            else if Ascii.eqb e "r"
            then scan_units eof r' (inl (ascii_of_nat 13) :: acc)
            else if Ascii.eqb e "t"
            then scan_units eof r' (inl (ascii_of_nat 9) :: acc)
            else Bad (invalid_character e "in string escape code")
        end
      else if (nat_of_ascii c <? 32)%nat
      then Bad (invalid_character c "in string literal")
      else scan_units eof r (inl c :: acc)
  end.

Definition is_surrogate (u : N) : bool := (55296 <=? u)%N && (u <? 57344)%N.

(** [utf8.RuneError], U+FFFD. *)
Definition RuneError : N := 65533%N.

(** The table [first] of [utf8] with its [acceptRanges]: for a leading
    byte above the ASCII range, the size of the encoding and the bounds of
    its second byte; [None] for a byte that starts no encoding. *)
Definition utf8_first (p0 : N) : option (N * N * N) :=
  if (p0 <? 194)%N then None
  else if (p0 <? 224)%N then Some (2, 128, 191)%N
  else if (p0 =? 224)%N then Some (3, 160, 191)%N
  else if (p0 =? 237)%N then Some (3, 128, 159)%N
  else if (p0 <? 240)%N then Some (3, 128, 191)%N
  else if (p0 =? 240)%N then Some (4, 144, 191)%N
  else if (p0 <? 244)%N then Some (4, 128, 191)%N
  else if (p0 =? 244)%N then Some (4, 128, 143)%N
  else None.

(** The low six bits of a byte of the literal that lies in [lo..hi].  The
    bytes that escapes stand for are below 128, and a [\u] escape is no
    byte: neither continues an encoding. *)
Definition continuation (lo hi : N) (u : ascii + N) : option N :=
  match u with
  | inl b =>
      let n := N_of_ascii b in
      if (lo <=? n)%N && (n <=? hi)%N then Some (n mod 64)%N else None
  | inr _ => None
  end.

(** The loop of [unquoteBytes].  A high surrogate followed by a low one is
    one rune, any other surrogate is U+FFFD.  A byte above the ASCII range
    goes through [utf8.DecodeRune] and [utf8.EncodeRune]: a well-formed
    encoding is written again, and a byte that starts none is replaced by
    U+FFFD. *)
Fixpoint encode_units (us : list (ascii + N)) : string :=
  match us with
  | [] => ""
  | inl c :: r =>
      let p0 := N_of_ascii c in
      let invalid := encode_rune RuneError ++ encode_units r in
      if (p0 <? 128)%N then String c (encode_units r)
      else
        match utf8_first p0, r with
        | Some (sz, lo, hi), u1 :: r1 =>
            match continuation lo hi u1 with
            | None => invalid
            | Some b1 =>
                if (sz =? 2)%N
                then encode_rune ((p0 mod 32) * 64 + b1)%N ++ encode_units r1
                else
                  match r1 with
                  | u2 :: r2 =>
                      match continuation 128 191 u2 with
                      | None => invalid
                      | Some b2 =>
                          if (sz =? 3)%N
                          then encode_rune
                                 (((p0 mod 16) * 64 + b1) * 64 + b2)%N
                               ++ encode_units r2
                          else
                            match r2 with
                            | u3 :: r3 =>
                                match continuation 128 191 u3 with
                                | None => invalid
                                | Some b3 =>
                                    encode_rune
                                      ((((p0 mod 8) * 64 + b1) * 64 + b2) * 64
                                       + b3)%N
                                    ++ encode_units r3
                                end
                            | [] => invalid
                            end
                      end
                  | [] => invalid
                  end
            end
        | _, _ => invalid
        end
  | inr u :: r =>
      if is_surrogate u then
        match r with
        | inr u' :: r' =>
            if (u <? 56320)%N && (56320 <=? u')%N && (u' <? 57344)%N
            then encode_rune ((u - 55296) * 1024 + (u' - 56320) + 65536)%N
                   ++ encode_units r'
            else encode_rune RuneError ++ encode_units r
        | _ => encode_rune RuneError ++ encode_units r
        end
      else encode_rune u ++ encode_units r
  end.

(** Scans a string literal whose opening quote has been read. *)
Definition scan_string (eof : bool) (s : string) : scan string :=
  match scan_units eof s [] with
  | Got us r => Got (encode_units us) r
  | More => More
  | Bad m => Bad m
  end.

(** *** Numbers and literals *)

(** Number literals, by the states of the scanner ([scanner.go]): after the
    minus sign, after a leading zero, in the integer digits, after the point,
    in the fraction digits, after the exponent mark, after its sign, in the
    exponent digits. *)
Inductive numstate : Type :=
  | stateNeg | state0 | state1 | stateDot | stateDot0
  | stateE | stateESign | stateE0.

Definition num_step (st : numstate) (c : ascii) : option numstate :=
  let exp := Ascii.eqb c "e" || Ascii.eqb c "E" in
  match st with
  | stateNeg =>
      if Ascii.eqb c "0" then Some state0
      else if is_digit c then Some state1 else None
  | state0 =>
      if Ascii.eqb c "." then Some stateDot
      else if exp then Some stateE else None
  | state1 =>
      if is_digit c then Some state1
      else if Ascii.eqb c "." then Some stateDot
      else if exp then Some stateE else None
  | stateDot => if is_digit c then Some stateDot0 else None
  | stateDot0 =>
      if is_digit c then Some stateDot0
      else if exp then Some stateE else None
  | stateE =>
      if Ascii.eqb c "+" || Ascii.eqb c "-" then Some stateESign
      else if is_digit c then Some stateE0 else None
  | stateESign => if is_digit c then Some stateE0 else None
  | stateE0 => if is_digit c then Some stateE0 else None
  end.

Definition num_done (st : numstate) : bool :=
  match st with
  | state0 | state1 | stateDot0 | stateE0 => true
  | _ => false
  end.

(** What the scanner says of a byte that a state of a number rejects; the
    states where the number may end pass the byte on to [stateEndValue]. *)
Definition num_context (st : numstate) : string :=
  match st with
  | stateNeg => "in numeric literal"
  | stateDot => "after decimal point in numeric literal"
  | stateE | stateESign => "in exponent of numeric literal"
  | state0 | state1 | stateDot0 | stateE0 => ""
  end.

(** [eof] tells that the input is known to end where [s] ends. *)
Fixpoint scan_number (eof : bool) (st : numstate) (acc : string) (s : string)
  : scan json :=
  match s with
  | EmptyString =>
      if num_done st then (if eof then Got (JNum acc) "" else More)
      else at_end eof (num_context st)
  | String c r =>
      match num_step st c with
      | Some st' => scan_number eof st' (acc ++ String c "") r
      | None =>
          if num_done st then Got (JNum acc) s
          else Bad (invalid_character c (num_context st))
      end
  end.

(** [in_literal name c]: the byte [c] of the literal [name] is expected. *)
Definition in_literal (name : string) (c : ascii) : string :=
  "in literal " ++ name ++ " (expecting '" ++ String c "')".

(** [scan_literal name w v s]: the rest [w] of the literal [name] is
    expected ([stateT] to [stateNul]). *)
Fixpoint scan_literal (eof : bool) (name w : string) (v : json) (s : string)
  : scan json :=
  match w with
  | EmptyString => Got v s
  | String c w' =>
      match s with
      | EmptyString => at_end eof (in_literal name c)
      | String d r =>
          if Ascii.eqb c d then scan_literal eof name w' v r
          else Bad (invalid_character d (in_literal name c))
      end
  end.

(** *** Values *)

Definition maxNestingDepth : nat := Z.to_nat 10000.

(** Values, array elements and object members.  [fuel] bounds the number of
    nested calls, [depth] is the number of open arrays and objects. *)
Fixpoint scan_value (fuel depth : nat) (eof : bool) (s : string) : scan json :=
  match fuel with
  | O => Bad "out of fuel"
  | S fuel' =>
      match skip_space s with
      | EmptyString => More
      | String c r =>
          if Ascii.eqb c "{" then
            if (maxNestingDepth <? S depth)%nat
            then Bad (invalid_character c "exceeded max depth")
            else match skip_space r with
                 | EmptyString => More
                 | String "}" r' => Got (JObj []) r'
                 | _ => scan_members fuel' (S depth) eof r []
                 end
          else if Ascii.eqb c "[" then
            if (maxNestingDepth <? S depth)%nat
            then Bad (invalid_character c "exceeded max depth")
            else match skip_space r with
                 | EmptyString => More
                 | String "]" r' => Got (JArr []) r'
                 | _ => scan_elems fuel' (S depth) eof r []
                 end
          else if Ascii.eqb c dquote then
            match scan_string eof r with
            | Got v r' => Got (JStr v) r'
            | More => More
            | Bad m => Bad m
            end
          else if Ascii.eqb c "t"
          then scan_literal eof "true" "rue" (JBool true) r
          else if Ascii.eqb c "f"
          then scan_literal eof "false" "alse" (JBool false) r
          else if Ascii.eqb c "n" then scan_literal eof "null" "ull" JNull r
          else if Ascii.eqb c "-" then scan_number eof stateNeg "-" r
          else if Ascii.eqb c "0" then scan_number eof state0 "0" r
          else if is_digit c then scan_number eof state1 (String c "") r
          else Bad (invalid_character c "looking for beginning of value")
      end
  end
with scan_elems (fuel depth : nat) (eof : bool) (s : string) (acc : list json)
  : scan json :=
  match fuel with
  | O => Bad "out of fuel"
  | S fuel' =>
      match scan_value fuel' depth eof s with
      | Got v r =>
          match skip_space r with
          | EmptyString => More
          | String "," r' => scan_elems fuel' depth eof r' (v :: acc)
          | String "]" r' => Got (JArr (rev (v :: acc))) r'
          | String c _ => Bad (invalid_character c "after array element")
          end
      | More => More
      | Bad m => Bad m
      end
  end
with scan_members (fuel depth : nat) (eof : bool) (s : string)
  (acc : list (string * json)) : scan json :=
  match fuel with
  | O => Bad "out of fuel"
  | S fuel' =>
      match skip_space s with
      | EmptyString => More
      | String c r =>
          if Ascii.eqb c dquote then
            match scan_string eof r with
            | Got k r1 =>
                match skip_space r1 with
                | EmptyString => More
                | String ":" r2 =>
                    match scan_value fuel' depth eof r2 with
                    | Got v r3 =>
                        match skip_space r3 with
                        | EmptyString => More
                        | String "," r4 =>
                            scan_members fuel' depth eof r4 ((k, v) :: acc)
                        | String "}" r4 => Got (JObj (rev ((k, v) :: acc))) r4
                        | String c3 _ =>
                            Bad (invalid_character c3
                                   "after object key:value pair")
                        end
                    | More => More
                    | Bad m => Bad m
                    end
                | String c1 _ => Bad (invalid_character c1 "after object key")
                end
            | More => More
            | Bad m => Bad m
            end
          else Bad (invalid_character c
                      "looking for beginning of object key string")
      end
  end.

Definition scan_fuel (s : string) : nat := (2 * String.length s + 2)%nat.

(** The whole of [data] is one value ([checkValid] and the decoding of the
    value it has checked).  The error is the one of the first byte that the
    scanner rejects; at the end of the data, the one of [scanner.eof]. *)
Definition parse (data : string) : json + error :=
  match scan_value (scan_fuel data) 0 true data with
  | Got v r =>
      match skip_space r with
      | EmptyString => inl v
      | String c _ =>
          inr (SyntaxError (invalid_character c "after top-level value"))
      end
  | More => inr (SyntaxError "unexpected end of JSON input")
  | Bad m => inr (SyntaxError m)
  end.

(** [json.Valid]. *)
Definition Valid (data : string) : bool :=
  match parse data with
  | inl _ => true
  | inr _ => false
  end.

(** ** [encoding/json]: decoding into Go values *)

(** Outcome of storing a JSON value into a Go value: the value after the
    store, and either the first type mismatch saved on the way
    ([d.saveError], decoding goes on) or the error that stopped the
    decoding. *)
Inductive stored (T : Type) : Type :=
  | Stored (t : T) (saved : option error)
  | Aborted (t : T) (err : error).
Arguments Stored {T} t saved.
Arguments Aborted {T} t err.

Definition stored_value {T} (s : stored T) : T :=
  match s with
  | Stored t _ => t
  | Aborted t _ => t
  end.

Definition stored_error {T} (s : stored T) : option error :=
  match s with
  | Stored _ saved => saved
  | Aborted _ err => Some err
  end.

(** The name that an [UnmarshalTypeError] gives to the JSON value it could
    not store. *)
Definition json_kind (j : json) : string :=
  match j with
  | JNull => "null"
  | JBool _ => "bool"
  | JNum _ => "number"
  | JStr _ => "string"
  | JArr _ => "array"
  | JObj _ => "object"
  end.

(** The reflective part of the decoder ([decodeState.value]) for a
    destination of type [T]. *)
Class JSONStore (T : Type) : Type := {
  json_store : json -> T -> stored T
}.

(** [json.Unmarshal]: [checkValid] first, and nothing is stored when the
    data is not valid JSON. *)
Definition Unmarshal {T} `{JSONStore T} (data : string) (v : T)
  : T * option error :=
  match parse data with
  | inr e => (v, Some e)
  | inl j => let s := json_store j v in (stored_value s, stored_error s)
  end.

(** The scanner of a [json.Decoder] over the bytes buffered so far: an
    array or an object ends with its closing bracket; the end of any other
    value shows one byte later. *)
Definition scan_stream (buf : string) : scan json :=
  match scan_value (scan_fuel buf) 0 false buf with
  | Got (JArr l) r => Got (JArr l) r
  | Got (JObj l) r => Got (JObj l) r
  | Got _ EmptyString => More
  | r => r
  end.

(** [Decoder.readValue]: scans the buffer, and refills it from the reader
    until it holds a whole value, the reader fails or the input ends. *)
Fixpoint readValue (buf : string) (cs : list string) (re : option error)
  (n : nat) : (json + error) * (list string * nat) :=
  match scan_stream buf with
  | Got v _ => (inl v, (cs, n))
  | Bad m => (inr (SyntaxError m), (cs, n))
  | More =>
      match cs with
      | c :: cs' => readValue (buf ++ c) cs' re (S n)
      | [] =>
          let err := default EOF re in
          (if is_EOF err then
             match scan_value (scan_fuel buf) 0 true buf with
             | Got v _ => inl v
             | _ => if nonEmpty buf then inr ErrUnexpectedEOF else inr EOF
             end
           else inr err,
           ([], S n))
      end
  end.

(** [json.NewDecoder(r).Decode(v)]. *)
Definition Decode {T} `{JSONStore T} (r : ReadCloser) (v : T)
  : ReadCloser * T * option error :=
  let '(res, (cs, n)) := readValue "" (chunks r) (rerr r) (nreads r) in
  let r' := mkBody cs (rerr r) n (closed r) in
  match res with
  | inr e => (r', v, Some e)
  | inl j => let s := json_store j v in (r', stored_value s, stored_error s)
  end.

(** ** [strings] and [fmt] *)

(** [strings.TrimRight(s, "/")]. *)
Fixpoint TrimRight_slash (s : string) : string :=
  match s with
  | EmptyString => ""
  | String c r =>
      match TrimRight_slash r with
      | EmptyString => if Ascii.eqb c "/" then "" else String c ""
      | r' => String c r'
      end
  end.

(** [strings.HasSuffix(s, "/")]. *)
Fixpoint HasSuffix_slash (s : string) : bool :=
  match s with
  | EmptyString => false
  | String c EmptyString => Ascii.eqb c "/"
  | String _ r => HasSuffix_slash r
  end.

(** [strings.HasPrefix(s, "/")]. *)
Definition HasPrefix_slash (s : string) : bool :=
  match s with
  | String "/" _ => true
  | _ => false
  end.

(** [strings.Join]. *)
Definition Join (elems : list string) (sep : string) : string :=
  String.concat sep elems.

(** The verb [%d] on an [int]. *)
Definition Itoa (n : Z) : string := NilZero.string_of_int (Z.to_int n).

(** ** [net/url] *)

(** The operations of [net/url] that the builders call.  [url_Parse] is
    [url.Parse], [url_String] is [URL.String], [url_ResolveReference] is
    [URL.ResolveReference] and [url_removeEmptyPort u] is [u] after
    [u.Host = removeEmptyPort(u.Host)]. *)
Class NetURL : Type := {
  url_URL : Type;
  url_Parse : string -> url_URL + error;
  url_String : url_URL -> string;
  url_ResolveReference : url_URL -> url_URL -> url_URL;
  url_removeEmptyPort : url_URL -> url_URL
}.

(** [URL.Parse]: parses [ref] and resolves it against [u]. *)
Definition URL_Parse `{NetURL} (u : url_URL) (ref : string) : url_URL + error :=
  match url_Parse ref with
  | inr e => inr e
  | inl refURL => inl (url_ResolveReference u refURL)
  end.

(** ** [net/http]: header maps, requests and responses *)

(** The token bytes of RFC 7230 ([httpguts.IsTokenRune],
    [textproto.validHeaderFieldByte]). *)
Definition isToken (c : ascii) : bool :=
  let n := nat_of_ascii c in
  ((48 <=? n) && (n <=? 57) || (65 <=? n) && (n <=? 90)
   || (97 <=? n) && (n <=? 122))%nat
  || existsb (Ascii.eqb c)
       (list_ascii_of_string "!#$%&'*+-.^_`|~").

Fixpoint all_bytes (p : ascii -> bool) (s : string) : bool :=
  match s with
  | EmptyString => true
  | String c r => p c && all_bytes p r
  end.

Definition to_upper (c : ascii) : ascii :=
  let n := nat_of_ascii c in
  if ((97 <=? n) && (n <=? 122))%nat then ascii_of_nat (n - 32) else c.
Definition to_lower (c : ascii) : ascii :=
  let n := nat_of_ascii c in
  if ((65 <=? n) && (n <=? 90))%nat then ascii_of_nat (n + 32) else c.

(** First letter and letters after a dash in upper case, the others in
    lower case. *)
Fixpoint canonical (upper : bool) (s : string) : string :=
  match s with
  | EmptyString => ""
  | String c r =>
      let c' := if upper then to_upper c else to_lower c in
      String c' (canonical (Ascii.eqb c' "-") r)
  end.

(** [textproto.CanonicalMIMEHeaderKey]: a key with a byte that is not a
    token byte is returned unchanged. *)
Definition CanonicalMIMEHeaderKey (s : string) : string :=
  if all_bytes isToken s then canonical true s else s.

Abbreviation http_Header := (gmap string (list string)).

(** [Header.Set] and [Header.Get]. *)
Definition Header_Set (h : http_Header) (key value : string) : http_Header :=
  <[CanonicalMIMEHeaderKey key := [value]]> h.

Definition Header_Get (h : http_Header) (key : string) : string :=
  match h !! CanonicalMIMEHeaderKey key with
  | Some (v :: _) => v
  | _ => ""
  end.

(** A key is present in the header map. *)
Definition Header_has (h : http_Header) (key : string) : bool :=
  match h !! CanonicalMIMEHeaderKey key with
  | Some _ => true
  | None => false
  end.

(** [validMethod] of [net/http]. *)
Definition validMethod (method : string) : bool :=
  negb (String.eqb method "") && all_bytes isToken method.

(** Field names are matched by [foldName]: ASCII letters in upper case,
    and the two runes that fold to an ASCII letter (U+017F to S, U+212A to
    K).  A name that folds to an ASCII name matches it. *)
Fixpoint foldName (s : string) : string :=
  match s with
  | EmptyString => ""
  | String c r =>
      let n := nat_of_ascii c in
      match r with
      | String c1 r1 =>
          if ((n =? 197) && (nat_of_ascii c1 =? 191))%nat
          then String "S" (foldName r1)
          else match r1 with
               | String c2 r2 =>
                   if ((n =? 226) && (nat_of_ascii c1 =? 132)
                       && (nat_of_ascii c2 =? 170))%nat
                   then String "K" (foldName r2)
                   else String (to_upper c) (foldName r)
               | EmptyString => String (to_upper c) (foldName r)
               end
      | EmptyString => String (to_upper c) ""
      end
  end.

Definition field_matches (key name : string) : bool :=
  String.eqb (foldName key) (foldName name).

(** [d.saveError]: the first error is kept. *)
Definition saveError (saved new : option error) : option error :=
  match saved with
  | Some _ => saved
  | None => new
  end.

(** ** A reference model of [net/url]

    URLs without user information, opaque part or escaped bytes:
    [scheme://host/path?query#fragment] and the relative forms of it.
    [Parse] refuses what the model does not cover. *)
Module GoURL.

Record URL : Type := mkURL {
  Scheme : string;
  Host : string;
  Path : string;
  RawQuery : string;
  Fragment : string
}.

(** [strings.Cut(s, sep)] for a one-byte separator. *)
Fixpoint Cut (sep : ascii) (s : string) : string * string * bool :=
  match s with
  | EmptyString => ("", "", false)
  | String c r =>
      if Ascii.eqb c sep then ("", r, true)
      else let '(a, b, found) := Cut sep r in (String c a, b, found)
  end.

Fixpoint Contains (c : ascii) (s : string) : bool :=
  match s with
  | EmptyString => false
  | String d r => Ascii.eqb c d || Contains c r
  end.

Definition is_letter (c : ascii) : bool :=
  let n := nat_of_ascii c in
  ((65 <=? n) && (n <=? 90) || (97 <=? n) && (n <=? 122))%nat.

(** [getScheme]: [Some (scheme, rest)], or [None] for a missing protocol
    scheme (a colon in first place). *)
Fixpoint scheme_loop (s acc : string) (whole : string)
  : option (string * string) :=
  match s with
  | EmptyString => Some ("", whole)
  | String c r =>
      if is_letter c then scheme_loop r (acc ++ String c "") whole
      else if is_digit c || Ascii.eqb c "+" || Ascii.eqb c "-"
              || Ascii.eqb c "."
      then match acc with
           | EmptyString => Some ("", whole)
           | _ => scheme_loop r (acc ++ String c "") whole
           end
      else if Ascii.eqb c ":"
      then match acc with
           | EmptyString => None
           | _ => Some (acc, r)
           end
      else Some ("", whole)
  end.

Definition getScheme (rawURL : string) : option (string * string) :=
  scheme_loop rawURL "" rawURL.

Fixpoint ToLower (s : string) : string :=
  match s with
  | EmptyString => ""
  | String c r => String (to_lower c) (ToLower r)
  end.

(** Bytes that [String] writes as they are in a path. *)
Definition plain_path_byte (c : ascii) : bool :=
  is_letter c || is_digit c
  || existsb (Ascii.eqb c) (list_ascii_of_string "-_.~$&+,/:;=@").

Definition plain_host_byte (c : ascii) : bool :=
  is_letter c || is_digit c || existsb (Ascii.eqb c) (list_ascii_of_string "-_.~").

Definition not_covered : error := OtherError "net/url: outside the reference model".

Definition has_prefix2 (s : string) : bool :=
  match s with
  | String "/" (String "/" _) => true
  | _ => false
  end.

Definition has_prefix3 (s : string) : bool :=
  match s with
  | String "/" (String "/" (String "/" _)) => true
  | _ => false
  end.

Definition no_CTL (c : ascii) : bool :=
  let n := nat_of_ascii c in ((32 <=? n) && negb (n =? 127) && (n <? 128))%nat.

Definition Parse (rawURL : string) : URL + error :=
  let '(u, frag, _) := Cut "#" rawURL in
  match getScheme u with
  | None => inr (OtherError "missing protocol scheme")
  | Some (scheme, rest) =>
      let '(rest, query, asked) := Cut "?" rest in
      if negb (HasPrefix_slash rest) && negb (String.eqb scheme "")
      then inr not_covered
      else if negb (HasPrefix_slash rest)
              && Contains ":" (fst (fst (Cut "/" rest)))
      then inr (OtherError "first path segment in URL cannot contain colon")
      else
        let '(host, path) :=
          if (negb (String.eqb scheme "") || negb (has_prefix3 rest))
             && has_prefix2 rest
          then let '(authority, p, found) :=
                 Cut "/" (substring 2 (String.length rest) rest) in
               (authority, if found then String "/" p else "")
          else ("", rest) in
        if all_bytes plain_host_byte host && all_bytes plain_path_byte path
           && all_bytes no_CTL query && all_bytes plain_path_byte frag
           && negb (asked && String.eqb query "")
           && negb (String.eqb rest "*")
        then inl (mkURL (ToLower scheme) host path query frag)
        else inr not_covered
  end.

Definition String_ (u : URL) : string :=
  let buf := if String.eqb (Scheme u) "" then "" else Scheme u ++ ":" in
  let buf :=
    if negb (String.eqb (Scheme u) "") || negb (String.eqb (Host u) "")
    then buf ++ (if negb (String.eqb (Host u) "") || negb (String.eqb (Path u) "")
                 then "//" else "") ++ Host u
    else buf in
  let path := Path u in
  let buf :=
    if negb (String.eqb path "") && negb (HasPrefix_slash path)
       && negb (String.eqb (Host u) "")
    then buf ++ "/" else buf in
  let buf :=
    if String.eqb buf "" && Contains ":" (fst (fst (Cut "/" path)))
    then "./" else buf in
  buf ++ path
  ++ (if String.eqb (RawQuery u) "" then "" else "?" ++ RawQuery u)
  ++ (if String.eqb (Fragment u) "" then "" else "#" ++ Fragment u).

(** [strings.Split(s, "/")]. *)
Fixpoint Split (s : string) : list string :=
  match s with
  | EmptyString => [""]
  | String c r =>
      if Ascii.eqb c "/" then "" :: Split r
      else match Split r with
           | e :: es => String c e :: es
           | [] => [String c ""]
           end
  end.

(** The part of [s] before its last slash, if it has one. *)
Fixpoint before_last_slash (s : string) : option string :=
  match s with
  | EmptyString => None
  | String c r =>
      match before_last_slash r with
      | Some p => Some (String c p)
      | None => if Ascii.eqb c "/" then Some "" else None
      end
  end.

(** The loop of [resolvePath] over the elements of the path: [dst] is the
    text written after the leading slash. *)
Fixpoint resolve_elems (elems : list string) (dst : string) (first : bool)
  : string :=
  match elems with
  | [] => dst
  | elem :: rest =>
      let last := match rest with [] => true | _ => false end in
      let '(dst, first) :=
        if String.eqb elem "." then (dst, false)
        else if String.eqb elem ".." then
          match before_last_slash dst with
          | None => ("", true)
          | Some p => (p, first)
          end
        else ((if first then dst else dst ++ "/") ++ elem, false) in
      if last && (String.eqb elem "." || String.eqb elem "..")
      then dst ++ "/"
      else resolve_elems rest dst first
  end.

Definition resolvePath (base ref : string) : string :=
  let full :=
    if String.eqb ref "" then base
    else if negb (HasPrefix_slash ref)
    then match before_last_slash base with
         | Some p => p ++ "/" ++ ref
         | None => ref
         end
    else ref in
  if String.eqb full "" then ""
  else
    let r := "/" ++ resolve_elems (Split full) "" true in
    match r with
    | String _ (String "/" r') => String "/" r'
    | _ => r
    end.

Definition ResolveReference (u ref : URL) : URL :=
  let scheme := if String.eqb (Scheme ref) "" then Scheme u else Scheme ref in
  if negb (String.eqb (Scheme ref) "") || negb (String.eqb (Host ref) "")
  then mkURL scheme (Host ref) (resolvePath (Path ref) "") (RawQuery ref)
         (Fragment ref)
  else
    let keep := String.eqb (Path ref) "" && String.eqb (RawQuery ref) "" in
    mkURL scheme (Host u) (resolvePath (Path u) (Path ref))
      (if keep then RawQuery u else RawQuery ref)
      (if keep && String.eqb (Fragment ref) "" then Fragment u
       else Fragment ref).

End GoURL.

#[export] Instance GoURL_NetURL : NetURL := {
  url_URL := GoURL.URL;
  url_Parse := GoURL.Parse;
  url_String := GoURL.String_;
  url_ResolveReference := GoURL.ResolveReference;
  url_removeEmptyPort u := u
}.

(** ** Reference writers and stores *)

(** [bytes.Buffer]: [Write] appends and never fails. *)
Record Buffer : Type := mkBuffer { Buffer_bytes : string }.

Definition Buffer_Write (w : Buffer) (p : string) : Buffer * Z * option error :=
  (mkBuffer (Buffer_bytes w ++ p), Z.of_nat (String.length p), None).

#[export] Instance Writer_Buffer : Writer Buffer := {
  Write := Buffer_Write;
  received := Buffer_bytes
}.

(** A writer with room for [room] more bytes: it takes what fits and
    fails on the rest. *)
Record LimitedWriter : Type := mkLimitedWriter {
  taken : string;
  room : nat
}.

Definition ErrNoSpace : error := OtherError "no space left on device".

Definition Limited_Write (w : LimitedWriter) (p : string)
  : LimitedWriter * Z * option error :=
  if (String.length p <=? room w)%nat
  then (mkLimitedWriter (taken w ++ p) (room w - String.length p),
        Z.of_nat (String.length p), None)
  else (mkLimitedWriter (taken w ++ substring 0 (room w) p) 0,
        Z.of_nat (room w), Some ErrNoSpace).

#[export] Instance Writer_Limited : Writer LimitedWriter := {
  Write := Limited_Write;
  received := taken
}.

(** A [[]string] that is nil before the store: [null] leaves it nil, an
    array gives one string per element (the zero string for [null] and
    for an element that is no string, which is a type mismatch), any other
    value is a type mismatch. *)
Definition store_string_elem (j : json) : string * option error :=
  match j with
  | JStr s => (s, None)
  | JNull => ("", None)
  | _ => ("", Some (UnmarshalTypeError
            "json: cannot unmarshal value into Go value of type string"))
  end.

Definition store_string_slice (j : json) (old : list string)
  : stored (list string) :=
  match j with
  | JNull => Stored [] None
  | JArr elems =>
      let rs := map store_string_elem elems in
      Stored (map fst rs)
        (fold_left saveError (map snd rs) None)
  | _ => Stored old (Some (UnmarshalTypeError
           "json: cannot unmarshal value into Go value of type []string"))
  end.

#[export] Instance store_strings_ref : JSONStore (list string) := {
  json_store := store_string_slice
}.

(** ** Destinations *)

(** The destination [v interface{}]: the nil interface, a value that
    implements [io.Writer], a non-nil pointer to a value that the decoder
    can fill, or anything else (a nil pointer, a value that is no
    pointer). *)
Inductive dest (T W : Type) : Type :=
  | dest_nil
  | dest_Writer (w : W)
  | dest_value (t : T)
  | dest_invalid.
Arguments dest_nil {T W}.
Arguments dest_Writer {T W} w.
Arguments dest_value {T W} t.
Arguments dest_invalid {T W}.

(** ** The client *)

Section Pipeline.

(** [Ctx] is the type of [context.Context] values and [World] the state of
    the world beyond the transport (the network and the server). *)
Context {net_url : NetURL} {Ctx World : Type}.

Record http_Request : Type := mkRequest {
  Method : string;
  URL : option url_URL;
  Header : http_Header;
  ReqBody : option string;
  Req_ctx : Ctx
}.

(** The [Body] of a response that a transport returns is never nil. *)
Record http_Response : Type := mkHTTPResponse {
  StatusCode : Z;
  Body : ReadCloser;
  Request : option http_Request
}.

Definition StatusNoContent : Z := 204.

(** [http.Client.Do]: a response whose [Body] is to be closed, or an
    error. *)
Definition http_Client : Type :=
  http_Request -> World -> (http_Response + error) * World.

Record Client : Type := mkClient {
  client : http_Client;
  BaseURL : url_URL;
  UserAgent : string;
  token : string
}.

Record RateLimit : Type := mkRateLimit {
  Limit : Z;
  Remaining : Z;
  Reset : Z
}.

(** The envelope.  [Response_http] is the embedded [*http.Response]: the
    envelope shows the response as it is when it is looked at. *)
Record Response : Type := mkResponse {
  Response_http : http_Response;
  Response_RateLimit : RateLimit
}.

Definition newResponse (r : http_Response) : Response :=
  {| Response_http := r; Response_RateLimit := mkRateLimit 0 0 0 |}.

(** The field [Response *http.Response] of an [APIError]: [nil], the
    response that [CheckResponse] was given (the same object as the one in
    the envelope), or a response that the decoder allocated. *)
Inductive ptr_Response : Type :=
  | nil_Response
  | the_Response
  | new_Response (r : http_Response).

Record APIError : Type := mkAPIError {
  APIError_Response : ptr_Response;
  Errors : list string
}.

(** What the pointer shows when the response given to [CheckResponse] is
    [r]. *)
Definition deref (r : http_Response) (p : ptr_Response)
  : option http_Response :=
  match p with
  | nil_Response => None
  | the_Response => Some r
  | new_Response r' => Some r'
  end.

(** *** [New] and its options *)

Definition defaultBaseURL : string := "https://api.chatwork.com/v2".
Definition userAgent : string := "chatwork-go".

Definition ClientOption : Type := Client -> Client.

Definition OptionHTTPClient (httpClient : http_Client) : ClientOption :=
  fun c => mkClient httpClient (BaseURL c) (UserAgent c) (token c).

Definition OptionDebug (debug : bool) : ClientOption := fun c => c.

(** [zeroClient] is [&http.Client{}], the client of the standard library
    with its default transport.  [None] is the panic on a default base URL
    that does not parse. *)
Definition New (zeroClient : http_Client) (token : string)
  (options : list ClientOption) : option Client :=
  match url_Parse defaultBaseURL with
  | inr _ => None
  | inl baseURL =>
      Some (fold_left (fun c option => option c) options
              (mkClient zeroClient baseURL userAgent token))
  end.

(** *** Decoding an error body into [*APIError]

    [APIError] has two exported fields and the decoder writes to both: to
    [Errors] under the key [errors], and to [Response], which carries no
    [json] tag, under the key [Response].  What the decoder stores in a
    [http.Response] and in a [[]string] is reflection inside
    [encoding/json]; it is taken as given. *)
Context {store_Response : JSONStore http_Response}.
Context {store_strings : JSONStore (list string)}.

(** The zero value that the decoder allocates behind a nil pointer; nothing
    reads its body. *)
Definition zero_http_Response : http_Response :=
  mkHTTPResponse 0 (mkBody [] None 0 false) None.

(** The decoder works on the error and, through its pointer, on the
    response [r] that [CheckResponse] was given. *)
Definition store_member (k : string) (v : json) (e : APIError)
  (r : http_Response) : stored (APIError * http_Response) :=
  if field_matches k "Response" then
    match v with
    | JNull => Stored (mkAPIError nil_Response (Errors e), r) None
    | _ =>
        match APIError_Response e with
        | the_Response =>
            match json_store v r with
            | Stored r' saved => Stored (e, r') saved
            | Aborted r' err => Aborted (e, r') err
            end
        | new_Response r0 =>
            match json_store v r0 with
            | Stored r' saved =>
                Stored (mkAPIError (new_Response r') (Errors e), r) saved
            | Aborted r' err =>
                Aborted (mkAPIError (new_Response r') (Errors e), r) err
            end
        | nil_Response =>
            match json_store v zero_http_Response with
            | Stored r' saved =>
                Stored (mkAPIError (new_Response r') (Errors e), r) saved
            | Aborted r' err =>
                Aborted (mkAPIError (new_Response r') (Errors e), r) err
            end
        end
    end
  else if field_matches k "errors" then
    match json_store v (Errors e) with
    | Stored l saved => Stored (mkAPIError (APIError_Response e) l, r) saved
    | Aborted l err => Aborted (mkAPIError (APIError_Response e) l, r) err
    end
  else Stored (e, r) None.

(** The members of an object, in order; a key that matches no field is
    skipped. *)
Fixpoint store_members (kvs : list (string * json)) (e : APIError)
  (r : http_Response) (saved : option error)
  : stored (APIError * http_Response) :=
  match kvs with
  | [] => Stored (e, r) saved
  | (k, v) :: kvs' =>
      match store_member k v e r with
      | Stored (e', r') err => store_members kvs' e' r' (saveError saved err)
      | Aborted er err => Aborted er err
      end
  end.

#[export] Instance store_APIError : JSONStore (APIError * http_Response) := {
  json_store j er :=
    match j with
    | JNull => Stored er None
    | JObj kvs => store_members kvs (fst er) (snd er) None
    | _ => Stored er (Some (UnmarshalTypeError
             ("json: cannot unmarshal " ++ json_kind j
              ++ " into Go value of type chatwork.APIError")))
    end
}.

(** The value is an object with a member that the decoder takes for the
    field [Response]. *)
Definition names_Response (j : json) : bool :=
  match j with
  | JObj kvs => existsb (fun kv => field_matches (fst kv) "Response") kvs
  | _ => false
  end.

(** *** [CheckResponse] *)

(** Returns the error ([None] is [nil]) and the response as the call leaves
    it: its body has been read on the error path. *)
Definition CheckResponse (r : http_Response)
  : option APIError * http_Response :=
  let c := StatusCode r in
  if (200 <=? c) && (c <=? 299) then (None, r)
  else
    let errorResponse := mkAPIError the_Response [] in
    let '(data, err, body) := ReadAll (Body r) in
    let r := mkHTTPResponse (StatusCode r) body (Request r) in
    match err, data with
    | None, Some data =>
        let '((errorResponse, r), err) := Unmarshal data (errorResponse, r) in
        match err with
        | Some err =>
            (Some (mkAPIError (APIError_Response errorResponse)
                     ["Failed to parse error response: " ++ Error_string err]),
             r)
        | None => (Some errorResponse, r)
        end
    | _, _ => (Some errorResponse, r)
    end.

(** *** [APIError.Error] *)

(** The verb [%v] on a [*url.URL]: a nil pointer prints as [<nil>]. *)
Definition fmt_URL (u : option url_URL) : string :=
  match u with
  | Some u => url_String u
  | None => "<nil>"
  end.

(** [r] is the response that [CheckResponse] was given.  [None] is the
    panic of a nil pointer dereference ([r.Response] or
    [r.Response.Request] is nil). *)
Definition Error (r : http_Response) (e : APIError) : option string :=
  match deref r (APIError_Response e) with
  | None => None
  | Some resp =>
      match Request resp with
      | None => None
      | Some req =>
          Some (Method req ++ " " ++ fmt_URL (URL req) ++ ": "
                ++ Itoa (StatusCode resp) ++ " " ++ Join (Errors e) ", ")
      end
  end.

(** The layout that the specification gives for the rendering:
    [<METHOD> <URL>: <STATUS> <msg1, msg2, ...>]. *)
Fixpoint comma_joined (msgs : list string) : string :=
  match msgs with
  | [] => ""
  | [m] => m
  | m :: ms => m ++ ", " ++ comma_joined ms
  end.

Definition rendering (method url : string) (status : Z) (msgs : list string)
  : string :=
  method ++ " " ++ url ++ ": " ++ Itoa status ++ " " ++ comma_joined msgs.

(** *** [processResponseBody] and [Do] *)

(** The decoder refuses a destination that is not a non-nil pointer, once
    it has read a value. *)
#[export] Instance store_invalid : JSONStore unit := {
  json_store _ t := Aborted t InvalidUnmarshalError
}.

Definition with_Body (r : http_Response) (b : ReadCloser) : http_Response :=
  mkHTTPResponse (StatusCode r) b (Request r).

Section Dest.

Context {T W : Type} `{JSONStore T} `{Writer W}.

(** [decErr == io.EOF] is no error. *)
Definition ignore_EOF (decErr : option error) : option error :=
  match decErr with
  | Some e => if is_EOF e then None else Some e
  | None => None
  end.

Definition processResponseBody (v : dest T W) (body : ReadCloser)
  : option error * dest T W * ReadCloser :=
  match v with
  | dest_Writer w =>
      let '(w', _, err, body') := Copy w body in
      match err with
      | Some err =>
          (Some (Wrapped "failed to copy response body: " err),
           dest_Writer w', body')
      | None => (None, dest_Writer w', body')
      end
  | dest_value t =>
      let '(body', t', decErr) := Decode body t in
      (ignore_EOF decErr, dest_value t', body')
  | dest_nil | dest_invalid =>
      let '(body', _, decErr) := Decode body tt in
      (ignore_EOF decErr, v, body')
  end.

(** The error that [Do] returns: an [*APIError] or another error. *)
Inductive DoError : Type :=
  | err_API (e : APIError)
  | err_other (e : error).

Record DoResult : Type := mkDoResult {
  do_Response : option Response;
  do_err : option DoError;
  do_v : dest T W
}.

Definition WithContext (req : http_Request) (ctx : Ctx) : http_Request :=
  mkRequest (Method req) (URL req) (Header req) (ReqBody req) ctx.

(** [v != nil]. *)
Definition not_nil (v : dest T W) : bool :=
  match v with
  | dest_nil => false
  | _ => true
  end.

(** [defer resp.Body.Close()]: runs when [Do] returns, on the response
    that the envelope points to. *)
Definition deferred_Close (resp : http_Response) : http_Response :=
  with_Body resp (Close (Body resp)).

Definition Do (c : Client) (ctx : Ctx) (req : http_Request) (v : dest T W)
  (w : World) : DoResult * World :=
  let req := WithContext req ctx in
  match client c req w with
  | (inr err, w') => (mkDoResult None (Some (err_other err)) v, w')
  | (inl resp, w') =>
      let '(err, resp) := CheckResponse resp in
      match err with
      | Some e =>
          (mkDoResult (Some (newResponse (deferred_Close resp)))
             (Some (err_API e)) v, w')
      | None =>
          if not_nil v && negb (StatusCode resp =? StatusNoContent) then
            let '(err, v', body) := processResponseBody v (Body resp) in
            (mkDoResult
               (Some (newResponse (deferred_Close (with_Body resp body))))
               (option_map err_other err) v', w')
          else
            (mkDoResult (Some (newResponse (deferred_Close resp))) None v, w')
      end
  end.

End Dest.

(** *** The request builders *)

(** The two encodings of a request body of type [B]:
    [json.NewEncoder(buf).Encode(body)] with [SetEscapeHTML(false)], and
    [query.Values(body)] followed by [form.Encode()].  Each gives the bytes
    of the body or fails. *)
Class JSONEncoder (B : Type) : Type := {
  json_Encode : B -> string + error
}.

Class FormEncoder (B : Type) : Type := {
  form_Encode : B -> string + error
}.

(** [http.NewRequestWithContext]; the context may be nil. *)
Definition http_NewRequestWithContext (ctx : option Ctx)
  (method url : string) (body : option string) : http_Request + error :=
  let method := if String.eqb method "" then "GET" else method in
  if negb (validMethod method)
  then inr (OtherError ("net/http: invalid method " ++ method))
  else
    match ctx with
    | None => inr (OtherError "net/http: nil Context")
    | Some ctx =>
        match url_Parse url with
        | inr e => inr e
        | inl u => inl (mkRequest method (Some (url_removeEmptyPort u)) ∅ body ctx)
        end
    end.

(** The headers set by both builders; [Content-Type] only with a body. *)
Definition set_headers (c : Client) (contentType : option string)
  (req : http_Request) : http_Request :=
  let h := Header req in
  let h := match contentType with
           | Some ct => Header_Set h "Content-Type" ct
           | None => h
           end in
  let h := Header_Set h "Accept" "application/json" in
  let h := Header_Set h "User-Agent" (UserAgent c) in
  let h := Header_Set h "X-ChatWorkToken" (token c) in
  mkRequest (Method req) (URL req) h (ReqBody req) (Req_ctx req).

(** What both builders promise about the headers of a request: the three
    fixed headers, and [Content-Type] if and only if there is a body. *)
Definition headers_set (c : Client) (contentType : string) (has_body : bool)
  (req : http_Request) : Prop :=
  Header_Get (Header req) "Accept" = "application/json"
  /\ Header_Get (Header req) "User-Agent" = UserAgent c
  /\ Header_Get (Header req) "X-ChatWorkToken" = token c
  /\ Header_has (Header req) "Content-Type" = has_body
  /\ (has_body = true -> Header_Get (Header req) "Content-Type" = contentType).

(** [body != nil]. *)
Definition has_body {B} (body : option B) : bool :=
  match body with
  | Some _ => true
  | None => false
  end.

Section Builders.

Context {B : Type} `{JSONEncoder B} `{FormEncoder B}.
Variable Background : Ctx.

Definition NewRequestWithContext (c : Client) (ctx : option Ctx)
  (method urlStr : string) (body : option B) : http_Request + error :=
  let baseURL := TrimRight_slash (url_String (BaseURL c)) in
  let urlStr := if negb (HasPrefix_slash urlStr) then "/" ++ urlStr else urlStr in
  let fullURL := baseURL ++ urlStr in
  match url_Parse fullURL with
  | inr err => inr err
  | inl u =>
      let buf := match body with
                 | Some b =>
                     match json_Encode b with
                     | inr err => inr err
                     | inl bytes => inl (Some bytes)
                     end
                 | None => inl None
                 end in
      match buf with
      | inr err => inr err
      | inl buf =>
          match http_NewRequestWithContext ctx method (url_String u) buf with
          | inr err => inr err
          | inl req =>
              inl (set_headers c
                     (match body with
                      | Some _ => Some "application/json"
                      | None => None
                      end) req)
          end
      end
  end.

Definition NewRequest (c : Client) (method urlStr : string) (body : option B)
  : http_Request + error :=
  NewRequestWithContext c (Some Background) method urlStr body.

Definition NewFormRequestWithContext (c : Client) (ctx : option Ctx)
  (method urlStr : string) (body : option B) : http_Request + error :=
  match URL_Parse (BaseURL c) urlStr with
  | inr err => inr err
  | inl u =>
      let buf := match body with
                 | Some b =>
                     match form_Encode b with
                     | inr err => inr err
                     | inl form => inl (Some form)
                     end
                 | None => inl None
                 end in
      match buf with
      | inr err => inr err
      | inl buf =>
          match http_NewRequestWithContext ctx method (url_String u) buf with
          | inr err => inr err
          | inl req =>
              inl (set_headers c
                     (match body with
                      | Some _ => Some "application/x-www-form-urlencoded"
                      | None => None
                      end) req)
          end
      end
  end.

Definition NewFormRequest (c : Client) (method urlStr : string)
  (body : option B) : http_Request + error :=
  NewFormRequestWithContext c (Some Background) method urlStr body.

End Builders.

(** *** The message endpoints ([MessagesService]) *)

Record MessageCreateParams : Type := mkMessageCreateParams {
  Params_Body : string;
  SelfUnread : bool
}.

Record MessageCreatedResponse : Type := mkMessageCreatedResponse {
  MessageID : string
}.

(** No type of the message endpoints implements [io.Writer]. *)
#[export] Instance Writer_none : Writer Empty_set := {
  Write w _ := match w with end;
  received w := match w with end
}.

Section Messages.

(** [params] is a [*MessageCreateParams]; as a request body it is a
    non-nil interface even when the pointer is nil. *)
Context `{FormEncoder (option MessageCreateParams)}.
Context `{JSONStore MessageCreatedResponse}.
Variable Background : Ctx.

Definition CreateResult : Type :=
  option MessageCreatedResponse * option Response * option DoError.

Definition Create (s : Client) (ctx : Ctx) (roomID : Z)
  (params : option MessageCreateParams) (w : World) : CreateResult * World :=
  let u := "rooms/" ++ Itoa roomID ++ "/messages" in
  match NewFormRequest Background s "POST" u (Some params) with
  | inr err => ((None, None, Some (err_other err)), w)
  | inl req =>
      let result := mkMessageCreatedResponse "" in
      let '(res, w') :=
        Do (W := Empty_set) s ctx req (dest_value result) w in
      match do_err res with
      | Some err => ((None, do_Response res, Some err), w')
      | None =>
          ((match do_v res with
            | dest_value result => Some result
            | _ => None
            end, do_Response res, None), w')
      end
  end.

(** The composite literal [&MessageCreateParams{Body: body}]: the fields
    that are not named have their zero value. *)
Definition MessageCreateParams_zero : MessageCreateParams :=
  mkMessageCreateParams "" false.

Definition set_Body (body : string) (p : MessageCreateParams)
  : MessageCreateParams :=
  mkMessageCreateParams body (SelfUnread p).

Definition SendMessage (s : Client) (ctx : Ctx) (roomID : Z) (body : string)
  (w : World) : CreateResult * World :=
  let params := Some (set_Body body MessageCreateParams_zero) in
  Create s ctx roomID params w.

(** What the documentation of [SendMessage] says it is: [Create] with
    parameters that hold the body only, the self-unread flag being off. *)
Definition SendMessage_as_documented (s : Client) (ctx : Ctx) (roomID : Z)
  (body : string) (w : World) : CreateResult * World :=
  Create s ctx roomID
    (Some {| Params_Body := body; SelfUnread := false |}) w.

End Messages.

End Pipeline.

Arguments http_Request {net_url} Ctx.
Arguments http_Response {net_url} Ctx.
Arguments http_Client {net_url} Ctx World.
Arguments Client {net_url} Ctx World.
Arguments ClientOption {net_url} Ctx World.
Arguments Response {net_url} Ctx.
Arguments ptr_Response {net_url} Ctx.
Arguments APIError {net_url} Ctx.
Arguments DoError {net_url} Ctx.
Arguments DoResult {net_url} Ctx T W.
Arguments CreateResult {net_url} Ctx.

(** ** Reference instances

    Concrete stores, encoders and transports, to run the pipeline on
    examples.  Contexts carry nothing ([unit]) and the world is the number
    of requests sent. *)

(** An integer literal, as the decoder reads it into an [int]. *)
Fixpoint digits_value (s : string) (acc : Z) : option Z :=
  match s with
  | EmptyString => Some acc
  | String c r =>
      if is_digit c
      then digits_value r (10 * acc + Z.of_nat (nat_of_ascii c - 48))
      else None
  end.

Definition int_literal (lit : string) : option Z :=
  match lit with
  | String "-" r => option_map Z.opp (digits_value r 0)
  | _ => digits_value lit 0
  end.

(** A store for [http.Response] that knows the field [StatusCode]: members
    with another key are skipped. *)
Fixpoint store_Response_members {Ctx} `{NetURL} (kvs : list (string * json))
  (r : http_Response Ctx) (saved : option error) : stored (http_Response Ctx) :=
  match kvs with
  | [] => Stored r saved
  | (k, v) :: kvs' =>
      if field_matches k "StatusCode" then
        match v with
        | JNull => store_Response_members kvs' r saved
        | JNum lit =>
            match int_literal lit with
            | Some n =>
                store_Response_members kvs'
                  (mkHTTPResponse n (Body r) (Request r)) saved
            | None =>
                store_Response_members kvs' r
                  (saveError saved (Some (UnmarshalTypeError
                     "json: cannot unmarshal number into Go struct field Response.StatusCode of type int")))
            end
        | _ =>
            store_Response_members kvs' r
              (saveError saved (Some (UnmarshalTypeError
                 "json: cannot unmarshal value into Go struct field Response.StatusCode of type int")))
        end
      else store_Response_members kvs' r saved
  end.

#[export] Instance store_Response_ref {Ctx} `{NetURL}
  : JSONStore (http_Response Ctx) := {
  json_store j r :=
    match j with
    | JNull => Stored r None
    | JObj kvs => store_Response_members kvs r None
    | _ => Stored r (Some (UnmarshalTypeError
             "json: cannot unmarshal value into Go value of type http.Response"))
    end
}.

(** [MessageCreatedResponse] has the one field [MessageID], under the key
    [message_id]. *)
Fixpoint store_MessageCreated_members (kvs : list (string * json))
  (m : MessageCreatedResponse) (saved : option error)
  : stored MessageCreatedResponse :=
  match kvs with
  | [] => Stored m saved
  | (k, v) :: kvs' =>
      if field_matches k "message_id" then
        match v with
        | JNull => store_MessageCreated_members kvs' m saved
        | JStr s =>
            store_MessageCreated_members kvs' (mkMessageCreatedResponse s) saved
        | _ =>
            store_MessageCreated_members kvs' m
              (saveError saved (Some (UnmarshalTypeError
                 "json: cannot unmarshal value into Go struct field MessageCreatedResponse.message_id of type string")))
        end
      else store_MessageCreated_members kvs' m saved
  end.

#[export] Instance store_MessageCreated_ref : JSONStore MessageCreatedResponse := {
  json_store j m :=
    match j with
    | JNull => Stored m None
    | JObj kvs => store_MessageCreated_members kvs m None
    | _ => Stored m (Some (UnmarshalTypeError
             "json: cannot unmarshal value into Go value of type chatwork.MessageCreatedResponse"))
    end
}.

(** [url.QueryEscape]: letters, digits and [-_.~] are kept, a space is a
    plus sign, any other byte is a percent sign and two hexadecimal
    digits. *)
Definition hex_digit (n : nat) : ascii :=
  if (n <? 10)%nat then ascii_of_nat (48 + n) else ascii_of_nat (55 + n).

Fixpoint QueryEscape (s : string) : string :=
  match s with
  | EmptyString => ""
  | String c r =>
      (if GoURL.is_letter c || is_digit c
          || existsb (Ascii.eqb c) (list_ascii_of_string "-_.~")
       then String c ""
       else if Ascii.eqb c " " then "+"
       else String "%" (String (hex_digit (nat_of_ascii c / 16))
                          (String (hex_digit (nat_of_ascii c mod 16)) "")))
      ++ QueryEscape r
  end.

(** [query.Values] on a [*MessageCreateParams] and [Encode]: a nil pointer
    gives no value; [self_unread] is left out when it is false. *)
#[export] Instance form_MessageCreateParams
  : FormEncoder (option MessageCreateParams) := {
  form_Encode p :=
    match p with
    | None => inl ""
    | Some p =>
        inl ("body=" ++ QueryEscape (Params_Body p)
             ++ (if SelfUnread p then "&self_unread=true" else ""))
    end
}.

(** A string as the JSON encoder writes it with HTML escaping off: the
    quote and the backslash are escaped, control bytes are written as
    [\n], [\r], [\t] or [\u00XX], other bytes are kept. *)
Fixpoint json_escape (s : string) : string :=
  match s with
  | EmptyString => ""
  | String c r =>
      let n := nat_of_ascii c in
      (if Ascii.eqb c dquote then String "\" (String dquote "")
       else if Ascii.eqb c "\" then "\\"
       else if (n =? 10)%nat then "\n"
       else if (n =? 13)%nat then "\r"
       else if (n =? 9)%nat then "\t"
       else if (n <? 32)%nat
       then "\u00" ++ String (to_lower (hex_digit (n / 16)))
                         (String (to_lower (hex_digit (n mod 16))) "")
       else String c "")
      ++ json_escape r
  end.

(** [MessageCreateParams] has no [json] tags: the members are named after
    the fields.  The encoder ends the value with a newline. *)
#[export] Instance json_MessageCreateParams
  : JSONEncoder (option MessageCreateParams) := {
  json_Encode p :=
    inl (match p with
         | None => "null"
         | Some p =>
             "{" ++ quoted "Body" ++ ":" ++ quoted (json_escape (Params_Body p))
             ++ "," ++ quoted "SelfUnread" ++ ":"
             ++ (if SelfUnread p then "true" else "false") ++ "}"
         end ++ String (ascii_of_nat 10) "")
}.

(** A request that never has a body. *)
#[export] Instance json_no_body : JSONEncoder Empty_set := {
  json_Encode b := match b with end
}.
#[export] Instance form_no_body : FormEncoder Empty_set := {
  form_Encode b := match b with end
}.

(** A transport that answers every request with [resp]. *)
Definition answer (resp : http_Response unit) : http_Client unit nat :=
  fun _ n => (inl resp, S n).

(** The client that [New] builds over the reference model of [net/url]. *)
Definition new_client (tr : http_Client unit nat) (token : string)
  : Client unit nat :=
  mkClient tr (GoURL.mkURL "https" "api.chatwork.com" "/v2" "" "")
    userAgent token.

(** A response with status [status] whose body delivers [chunks] and ends
    cleanly, to the request [req]. *)
Definition response (status : Z) (chunks : list string)
  (req : option (http_Request unit)) : http_Response unit :=
  mkHTTPResponse status (mkBody chunks None 0 false) req.

Definition request (method path : string) : http_Request unit :=
  mkRequest method (Some (GoURL.mkURL "" "" path "" "")) ∅ None tt.

(** The URL of the request that a builder returns, as text. *)
Definition final_URL (r : http_Request unit + error) : option string :=
  match r with
  | inl req => option_map url_String (URL req)
  | inr _ => None
  end.

Definition no_transport : http_Client unit nat := answer (response 200 [] None).

(** ** Further definitions *)

(** The options that the package offers, as values: [inl tr] is
    [OptionHTTPClient(tr)] and [inr d] is [OptionDebug(d)]. *)
Definition as_ClientOption {net_url : NetURL} {Ctx World : Type}
  (o : http_Client Ctx World + bool) : ClientOption Ctx World :=
  match o with
  | inl httpClient => OptionHTTPClient httpClient
  | inr debug => OptionDebug debug
  end.

(** A member whose key names neither field of [APIError]. *)
Definition other_member (kv : string * json) : bool :=
  negb (field_matches (fst kv) "errors")
  && negb (field_matches (fst kv) "Response").

(** *** The structures of [types.go] that the endpoints below decode *)

Module User.
Record t : Type := mk {
  AccountID : Z;
  RoomID : Z;
  Name : string;
  AvatarImageURL : string;
  ChatworkID : string;
  OrganizationID : Z;
  OrganizationName : string;
  Department : string;
  Title : string;
  URL : string;
  Introduction : string;
  Mail : string;
  TelOrganization : string;
  TelExtension : string;
  TelMobile : string;
  Skype : string;
  Facebook : string;
  Twitter : string
}.
Definition zero : t :=
  mk 0 0 "" "" "" 0 "" "" "" "" "" "" "" "" "" "" "" "".
End User.

Module Message.
Record t : Type := mk {
  MessageID : string;
  Account : User.t;
  Body : string;
  SendTime : Z;
  UpdateTime : Z
}.
Definition zero : t := mk "" User.zero "" 0 0.
End Message.

Module TaskRoom.
Record t : Type := mk {
  RoomID : Z;
  Name : string;
  IconPath : string
}.
Definition zero : t := mk 0 "" "".
End TaskRoom.

Module TaskAccount.
Record t : Type := mk {
  AccountID : Z;
  Name : string;
  AvatarImageURL : string
}.
Definition zero : t := mk 0 "" "".
End TaskAccount.

Module MyTask.
Record t : Type := mk {
  TaskID : Z;
  Room : TaskRoom.t;
  AssignedByAccount : TaskAccount.t;
  MessageID : string;
  Body : string;
  LimitTime : Z;
  Status : string;
  LimitType : string
}.
Definition zero : t := mk 0 TaskRoom.zero TaskAccount.zero "" "" 0 "" "".
End MyTask.

(** *** The query of a URL

    [url_Query] is [URL.Query], [url_set_RawQuery u q] is [u] after
    [u.RawQuery = q], and [Values_Encode] is [Values.Encode]. *)
Abbreviation url_Values := (gmap string (list string)).

Class URLQuery {net_url : NetURL} : Type := {
  url_Query : url_URL -> url_Values;
  url_set_RawQuery : url_URL -> string -> url_URL;
  Values_Encode : url_Values -> string
}.

(** [Values.Add]. *)
Definition Values_Add (v : url_Values) (key value : string) : url_Values :=
  <[key := (default [] (v !! key) ++ [value])%list]> v.

(** What an endpoint returns: the decoded value, the envelope and the
    error. *)
Definition Result {net_url : NetURL} (Ctx A : Type) : Type :=
  option A * option (Response Ctx) * option (DoError Ctx).

(** *** More of [MessagesService] *)

Module MessagesService.
Section Endpoints.

Context {net_url : NetURL} {Ctx World : Type}.
Context {store_Response : JSONStore (http_Response Ctx)}.
Context {store_strings : JSONStore (list string)}.
Context `{FormEncoder (option MessageCreateParams)}.
Context `{JSONStore MessageCreatedResponse}.
Context `{JSONStore Message.t}.
Variable Background : Ctx.

(** A request without body has the nil interface for body; the type of
    the body does not matter. *)
Definition Get (s : Client Ctx World) (ctx : Ctx) (roomID : Z)
  (messageID : string) (w : World) : Result Ctx Message.t * World :=
  let u := "rooms/" ++ Itoa roomID ++ "/messages/" ++ messageID in
  match NewRequest (B := Empty_set) Background s "GET" u None with
  | inr err => ((None, None, Some (err_other err)), w)
  | inl req =>
      let message := Message.zero in
      let '(res, w') :=
        Do (W := Empty_set) s ctx req (dest_value message) w in
      match do_err res with
      | Some err => ((None, do_Response res, Some err), w')
      | None =>
          ((match do_v res with
            | dest_value message => Some message
            | _ => None
            end, do_Response res, None), w')
      end
  end.

(** The loop [for _, id := range accountIDs { mentions += ... }]. *)
Definition mentions_loop (accountIDs : list Z) : string :=
  fold_left (fun mentions id => mentions ++ "[To:" ++ Itoa id ++ "] ")
    accountIDs "".

Definition SendTo (s : Client Ctx World) (ctx : Ctx) (roomID : Z)
  (accountIDs : list Z) (body : string) (w : World)
  : CreateResult Ctx * World :=
  let mentions := mentions_loop accountIDs in
  let params := Some (set_Body (mentions ++ body) MessageCreateParams_zero) in
  Create Background s ctx roomID params w.

Definition Reply (s : Client Ctx World) (ctx : Ctx) (roomID : Z)
  (messageID body : string) (w : World) : CreateResult Ctx * World :=
  let params :=
    Some (set_Body ("[rp aid=" ++ messageID ++ "] " ++ body)
            MessageCreateParams_zero) in
  Create Background s ctx roomID params w.

(** The text that [Quote] sends. *)
Definition quotedBody (message : Message.t) (body : string) : string :=
  "[qt][qtmeta aid=" ++ Itoa (User.AccountID (Message.Account message))
  ++ " time=" ++ Itoa (Message.SendTime message) ++ "]"
  ++ Message.Body message ++ "[/qt]" ++ String (ascii_of_nat 10) "" ++ body.

(** [None] is the panic of reading a field of a nil [*Message]. *)
Definition Quote (s : Client Ctx World) (ctx : Ctx) (roomID : Z)
  (messageID body : string) (w : World)
  : option (CreateResult Ctx * World) :=
  let '((message, _, err), w') := Get s ctx roomID messageID w in
  match err with
  | Some err => Some ((None, None, Some err), w')
  | None =>
      match message with
      | None => None
      | Some message =>
          let params :=
            Some (set_Body (quotedBody message body)
                    MessageCreateParams_zero) in
          Some (Create Background s ctx roomID params w')
      end
  end.

Definition SendInfo (s : Client Ctx World) (ctx : Ctx) (roomID : Z)
  (title body : string) (w : World) : CreateResult Ctx * World :=
  let infoBody := "[info][title]" ++ title ++ "[/title]" ++ body ++ "[/info]" in
  let params := Some (set_Body infoBody MessageCreateParams_zero) in
  Create Background s ctx roomID params w.

End Endpoints.
End MessagesService.

(** The tags that [SendTo] is documented to put before the body: one
    [To] tag per account, in order. *)
Fixpoint mention_tags (accountIDs : list Z) : string :=
  match accountIDs with
  | [] => ""
  | id :: rest => "[To:" ++ Itoa id ++ "] " ++ mention_tags rest
  end.

(** *** [MyTasksService] *)

Module MyTasksService.

Record MyTaskListParams : Type := mkMyTaskListParams {
  AssignedByAccountID : Z;
  Status : string
}.

Section Endpoints.

Context {net_url : NetURL} {queries : URLQuery} {Ctx World : Type}.
Context {store_Response : JSONStore (http_Response Ctx)}.
Context {store_strings : JSONStore (list string)}.
(** A [[]*MyTask]: an element may be a nil pointer. *)
Context `{JSONStore (list (option MyTask.t))}.
Variable Background : Ctx.

(** The query that [List] adds to the URL of the request. *)
Definition add_filters (params : MyTaskListParams) (u : url_URL) : url_URL :=
  let q := url_Query u in
  let q := if 0 <? AssignedByAccountID params
           then Values_Add q "assigned_by_account_id"
                  (Itoa (AssignedByAccountID params))
           else q in
  let q := if negb (String.eqb (Status params) "")
           then Values_Add q "status" (Status params)
           else q in
  url_set_RawQuery u (Values_Encode q).

(** [None] is the panic of a request without URL. *)
Definition List (s : Client Ctx World) (ctx : Ctx)
  (params : option MyTaskListParams) (w : World)
  : option (Result Ctx (list (option MyTask.t)) * World) :=
  match NewRequest (B := Empty_set) Background s "GET" "my/tasks" None with
  | inr err => Some ((None, None, Some (err_other err)), w)
  | inl req =>
      let req' :=
        match params with
        | None => Some req
        | Some params =>
            match URL req with
            | None => None
            | Some u =>
                Some (mkRequest (Method req) (Some (add_filters params u))
                        (Header req) (ReqBody req) (Req_ctx req))
            end
        end in
      match req' with
      | None => None
      | Some req =>
          let tasks : list (option MyTask.t) := [] in
          let '(res, w') :=
            Do (W := Empty_set) s ctx req (dest_value tasks) w in
          match do_err res with
          | Some err => Some ((None, do_Response res, Some err), w')
          | None =>
              Some ((match do_v res with
                     | dest_value tasks => Some tasks
                     | _ => None
                     end, do_Response res, None), w')
          end
      end
  end.

(** The loop of [GetByRoom]; [None] is the panic of reading the room of a
    nil [*MyTask]. *)
Fixpoint room_loop (roomID : Z) (allTasks tasks : list (option MyTask.t))
  : option (list (option MyTask.t)) :=
  match allTasks with
  | [] => Some tasks
  | task :: rest =>
      match task with
      | None => None
      | Some t =>
          if TaskRoom.RoomID (MyTask.Room t) =? roomID
          then room_loop roomID rest (tasks ++ [task])%list
          else room_loop roomID rest tasks
      end
  end.

Definition GetByRoom (s : Client Ctx World) (ctx : Ctx) (roomID : Z)
  (w : World) : option (Result Ctx (list (option MyTask.t)) * World) :=
  match List s ctx None w with
  | None => None
  | Some ((allTasks, resp, err), w') =>
      match err with
      | Some err => Some ((None, resp, Some err), w')
      | None =>
          match room_loop roomID (default [] allTasks) [] with
          | None => None
          | Some tasks => Some ((Some tasks, resp, None), w')
          end
      end
  end.

End Endpoints.
End MyTasksService.

(** A task that is in the room [roomID]. *)
Definition in_room (roomID : Z) (task : option MyTask.t) : bool :=
  match task with
  | Some t => TaskRoom.RoomID (MyTask.Room t) =? roomID
  | None => false
  end.

(** *** Reference stores and queries for the endpoints *)

Definition type_mismatch (field : string) : option error :=
  Some (UnmarshalTypeError
          ("json: cannot unmarshal value into Go struct field " ++ field)).

(** A store for [Message] that knows [message_id], [body], [send_time] and
    the [account_id] of [account]; other members are skipped. *)
Fixpoint store_account_members (kvs : list (string * json)) (u : User.t)
  (saved : option error) : User.t * option error :=
  match kvs with
  | [] => (u, saved)
  | (k, v) :: kvs' =>
      if field_matches k "account_id" then
        match v with
        | JNull => store_account_members kvs' u saved
        | JNum lit =>
            match int_literal lit with
            | Some n =>
                store_account_members kvs'
                  (User.mk n (User.RoomID u) (User.Name u)
                     (User.AvatarImageURL u) (User.ChatworkID u)
                     (User.OrganizationID u) (User.OrganizationName u)
                     (User.Department u) (User.Title u) (User.URL u)
                     (User.Introduction u) (User.Mail u)
                     (User.TelOrganization u) (User.TelExtension u)
                     (User.TelMobile u) (User.Skype u) (User.Facebook u)
                     (User.Twitter u)) saved
            | None =>
                store_account_members kvs' u
                  (saveError saved (type_mismatch "User.account_id"))
            end
        | _ =>
            store_account_members kvs' u
              (saveError saved (type_mismatch "User.account_id"))
        end
      else store_account_members kvs' u saved
  end.

Fixpoint store_Message_members (kvs : list (string * json)) (m : Message.t)
  (saved : option error) : Message.t * option error :=
  match kvs with
  | [] => (m, saved)
  | (k, v) :: kvs' =>
      let upd id acc body time :=
        Message.mk id acc body time (Message.UpdateTime m) in
      let same := (m, None) in
      let '(m', err) :=
        if field_matches k "message_id" then
          match v with
          | JNull => same
          | JStr s =>
              (upd s (Message.Account m) (Message.Body m) (Message.SendTime m),
               None)
          | _ => (m, type_mismatch "Message.message_id")
          end
        else if field_matches k "body" then
          match v with
          | JNull => same
          | JStr s =>
              (upd (Message.MessageID m) (Message.Account m) s
                 (Message.SendTime m), None)
          | _ => (m, type_mismatch "Message.body")
          end
        else if field_matches k "send_time" then
          match v with
          | JNull => same
          | JNum lit =>
              match int_literal lit with
              | Some n =>
                  (upd (Message.MessageID m) (Message.Account m)
                     (Message.Body m) n, None)
              | None => (m, type_mismatch "Message.send_time")
              end
          | _ => (m, type_mismatch "Message.send_time")
          end
        else if field_matches k "account" then
          match v with
          | JNull => same
          | JObj members =>
              let '(u, e) :=
                store_account_members members (Message.Account m) None in
              (upd (Message.MessageID m) u (Message.Body m)
                 (Message.SendTime m), e)
          | _ => (m, type_mismatch "Message.account")
          end
        else same in
      store_Message_members kvs' m' (saveError saved err)
  end.

#[export] Instance store_Message_ref : JSONStore Message.t := {
  json_store j m :=
    match j with
    | JNull => Stored m None
    | JObj kvs =>
        let '(m', saved) := store_Message_members kvs m None in
        Stored m' saved
    | _ => Stored m (type_mismatch "Message")
    end
}.

(** A store for [[]*MyTask] that knows [task_id] and the [room_id] of
    [room]: [null] in the array is a nil pointer. *)
Fixpoint store_room_members (kvs : list (string * json)) (r : TaskRoom.t)
  : TaskRoom.t :=
  match kvs with
  | [] => r
  | (k, v) :: kvs' =>
      store_room_members kvs'
        (match v with
         | JNum lit =>
             if field_matches k "room_id"
             then TaskRoom.mk (default (TaskRoom.RoomID r) (int_literal lit))
                    (TaskRoom.Name r) (TaskRoom.IconPath r)
             else r
         | _ => r
         end)
  end.

Fixpoint store_MyTask_members (kvs : list (string * json)) (t : MyTask.t)
  : MyTask.t :=
  match kvs with
  | [] => t
  | (k, v) :: kvs' =>
      let upd id room :=
        MyTask.mk id room (MyTask.AssignedByAccount t) (MyTask.MessageID t)
          (MyTask.Body t) (MyTask.LimitTime t) (MyTask.Status t)
          (MyTask.LimitType t) in
      store_MyTask_members kvs'
        (match v with
         | JNum lit =>
             if field_matches k "task_id"
             then upd (default (MyTask.TaskID t) (int_literal lit))
                    (MyTask.Room t)
             else t
         | JObj members =>
             if field_matches k "room"
             then upd (MyTask.TaskID t)
                    (store_room_members members (MyTask.Room t))
             else t
         | _ => t
         end)
  end.

Definition store_MyTask_elem (j : json) : option MyTask.t * option error :=
  match j with
  | JNull => (None, None)
  | JObj kvs => (Some (store_MyTask_members kvs MyTask.zero), None)
  | _ => (Some MyTask.zero, type_mismatch "MyTask")
  end.

#[export] Instance store_MyTasks_ref : JSONStore (list (option MyTask.t)) := {
  json_store j old :=
    match j with
    | JNull => Stored [] None
    | JArr elems =>
        let rs := map store_MyTask_elem elems in
        Stored (map fst rs) (fold_left saveError (map snd rs) None)
    | _ => Stored old (type_mismatch "[]*MyTask")
    end
}.

(** Queries over the reference URLs, for queries without escaped bytes:
    [key=value] pairs between ampersands. *)
Fixpoint split_on (sep : ascii) (s : string) : list string :=
  match s with
  | EmptyString => [""]
  | String c r =>
      if Ascii.eqb c sep then "" :: split_on sep r
      else match split_on sep r with
           | e :: es => String c e :: es
           | [] => [String c ""]
           end
  end.

Definition ParseQuery (query : string) : url_Values :=
  fold_left
    (fun m pair =>
       if String.eqb pair "" then m
       else let '(k, v, _) := GoURL.Cut "=" pair in Values_Add m k v)
    (split_on "&" query) ∅.

Fixpoint insert_sorted (k : string) (l : list string) : list string :=
  match l with
  | [] => [k]
  | x :: r => if String.leb k x then k :: l else x :: insert_sorted k r
  end.

Definition sorted_keys (v : url_Values) : list string :=
  fold_right insert_sorted [] (map fst (map_to_list v)).

Definition Encode (v : url_Values) : string :=
  String.concat "&"
    (flat_map
       (fun k =>
          map (fun x => QueryEscape k ++ "=" ++ QueryEscape x)
            (default [] (v !! k)))
       (sorted_keys v)).

#[export] Instance GoURL_URLQuery : URLQuery := {
  url_Query u := ParseQuery (GoURL.RawQuery u);
  url_set_RawQuery u q :=
    GoURL.mkURL (GoURL.Scheme u) (GoURL.Host u) (GoURL.Path u) q
      (GoURL.Fragment u);
  Values_Encode := Encode
}.

(** A transport that answers the [n]-th request with the [n]-th response of
    [rs], and fails when there is none. *)
Definition answers (rs : list (http_Response unit)) : http_Client unit nat :=
  fun _ n =>
    (match rs !! n with
     | Some r => inl r
     | None => inr (OtherError "connection refused")
     end, S n).

(** ** Properties *)

Section Properties.

Context {net_url : NetURL} {Ctx World : Type}.
Context {store_Response : JSONStore (http_Response Ctx)}.
Context {store_strings : JSONStore (list string)}.

(** *** Strings and readers *)

Lemma append_cons (c : ascii) (s t : string) :
  String c s ++ t = String c (s ++ t).
Proof. reflexivity. Qed.

Lemma append_empty_r (s : string) : s ++ "" = s.
Proof. induction s as [|c s IH]; [reflexivity|]. now rewrite append_cons, IH. Qed.

Lemma append_assoc (s t u : string) : (s ++ t) ++ u = s ++ (t ++ u).
Proof.
  induction s as [|c s IH]; [reflexivity|]. now rewrite !append_cons, IH.
Qed.

Lemma append_eq_empty (s t : string) : s ++ t = "" -> s = "" /\ t = "".
Proof.
  destruct s as [|c s]; intros Ht.
  - change (t = "") in Ht. now subst.
  - rewrite append_cons in Ht. discriminate.
Qed.

Lemma substring_all (s : string) : substring 0 (String.length s) s = s.
Proof. induction s as [|c s IH]; simpl; [reflexivity | now rewrite IH]. Qed.

Lemma Buffer_contract : Writer_contract Buffer.
Proof.
  intros w p w' n e Heq _. injection Heq as <- <- <-. simpl.
  now rewrite Nat2Z.id, substring_all.
Qed.

Lemma LimitedWriter_contract : Writer_contract LimitedWriter.
Proof.
  intros w p w' n e Heq _. simpl in Heq. unfold Limited_Write in Heq.
  destruct (String.length p <=? room w)%nat; injection Heq as <- <- <-; simpl;
    rewrite Nat2Z.id; [now rewrite substring_all | reflexivity].
Qed.

Lemma readAll_loop_spec (acc : string) (cs : list string) (n : nat) :
  readAll_loop acc cs n
  = (acc ++ fold_right String.append "" cs, S (length cs + n)).
Proof.
  revert acc n; induction cs as [|c cs IH]; intros acc n; simpl.
  - now rewrite append_empty_r.
  - rewrite IH, append_assoc. repeat f_equal. lia.
Qed.

(** [io.ReadAll] on a stream that ends cleanly gives the whole content,
    a slice that is not nil, and leaves nothing to read. *)
Lemma ReadAll_clean (b : ReadCloser) :
  rerr b = None ->
  ReadAll b = (Some (content b), None,
               mkBody [] None (S (length (chunks b) + nreads b)) (closed b)).
Proof.
  intros Hre. unfold ReadAll, content.
  rewrite readAll_loop_spec, Hre. reflexivity.
Qed.

(** [ReadAll] is [Read] until it reports an error. *)
Lemma ReadAll_Read (b : ReadCloser) :
  ReadAll b
  = match Read b with
    | (c, None, b') =>
        let '(data, err, b'') := ReadAll b' in
        (option_map (String.append c) data, err, b'')
    | (_, Some e, b') => (Some "", EOF_to_nil (Some e), b')
    end.
Proof.
  destruct b as [[|c cs] re n cl]; [reflexivity|].
  unfold ReadAll, Read; simpl.
  rewrite !readAll_loop_spec. reflexivity.
Qed.

(** *** [CheckResponse] *)

Lemma CheckResponse_2xx (r : http_Response Ctx) :
  200 <= StatusCode r <= 299 -> CheckResponse r = (None, r).
Proof.
  intros [Hlo Hhi]. unfold CheckResponse.
  apply Z.leb_le in Hlo, Hhi. now rewrite Hlo, Hhi.
Qed.

Lemma CheckResponse_not_2xx (r : http_Response Ctx) :
  ~ (200 <= StatusCode r <= 299) ->
  exists e r', CheckResponse r = (Some e, r').
Proof.
  intros Hc. unfold CheckResponse.
  destruct ((200 <=? StatusCode r) && (StatusCode r <=? 299)) eqn:E.
  - apply andb_true_iff in E as [E1 E2]. apply Z.leb_le in E1, E2. lia.
  - destruct (ReadAll (Body r)) as [[data err] body].
    destruct err; [eauto|]. destruct data as [data|]; [|eauto].
    destruct (Unmarshal data _) as [[e' r'] [err|]]; eauto.
Qed.

Lemma store_members_keeps_Response (kvs : list (string * json)) :
  forall (e : APIError Ctx) (r : http_Response Ctx) (saved : option error),
    existsb (fun kv => field_matches (fst kv) "Response") kvs = false ->
    snd (stored_value (store_members kvs e r saved)) = r
    /\ APIError_Response (fst (stored_value (store_members kvs e r saved)))
       = APIError_Response e.
Proof.
  induction kvs as [|[k v] kvs IH]; intros e r saved Hno; [now split|].
  simpl in Hno. apply orb_false_iff in Hno as [Hk Hno].
  simpl. unfold store_member. rewrite Hk.
  destruct (field_matches k "errors").
  - destruct (json_store v (Errors e)) as [l sv|l err]; simpl.
    + destruct (IH (mkAPIError (APIError_Response e) l) r
                  (saveError saved sv) Hno) as [H1 H2]. now split.
    + now split.
  - apply (IH e r _ Hno).
Qed.

(** Away from that input the error keeps the response and its status: for
    a status outside 200..299 and a body that is not an object with a
    member named [Response], the error that [CheckResponse] returns points
    to the response, whose status code is unchanged. *)
Lemma CheckResponse_keeps_status (r : http_Response Ctx) :
  ~ (200 <= StatusCode r <= 299) ->
  (forall j, parse (content (Body r)) = inl j -> names_Response j = false) ->
  exists e r',
    CheckResponse r = (Some e, r')
    /\ APIError_Response e = the_Response
    /\ StatusCode r' = StatusCode r.
Proof.
  intros Hc Hno. unfold CheckResponse.
  destruct ((200 <=? StatusCode r) && (StatusCode r <=? 299)) eqn:E.
  { apply andb_true_iff in E as [E1 E2]. apply Z.leb_le in E1, E2. lia. }
  unfold ReadAll. rewrite readAll_loop_spec.
  change ("" ++ fold_right String.append "" (chunks (Body r)))
    with (content (Body r)).
  destruct (EOF_to_nil _); [do 2 eexists; repeat split|].
  unfold Unmarshal. destruct (parse (content (Body r))) as [j|err] eqn:Hp;
    [|do 2 eexists; repeat split].
  specialize (Hno j eq_refl). simpl json_store.
  set (r0 := mkHTTPResponse _ _ _).
  assert (Hkeep : snd (stored_value (json_store j (mkAPIError the_Response [], r0))) = r0
                  /\ APIError_Response
                       (fst (stored_value (json_store j (mkAPIError the_Response [], r0))))
                     = the_Response).
  { destruct j as [| | | | |members]; try (simpl; now split).
    exact (store_members_keeps_Response members
             (mkAPIError the_Response []) r0 None Hno). }
  destruct Hkeep as [Hr He].
  destruct (stored_value _) as [e1 r1]; simpl in Hr, He; subst r1.
  destruct (stored_error _); do 2 eexists;
    (split; [reflexivity|]); split; try assumption; reflexivity.
Qed.

(** C1, at the input where the code departs from it: a response with
    status 400 whose body is the JSON object with the single member
    [Response] set to [null].  The decoder writes to the exported field
    [Response] of the error, so the error that [CheckResponse] returns has a
    nil response: it carries no status code to compare with the status of
    the response, and rendering it dereferences the nil pointer. *)
Theorem CheckResponse_null_Response (req : option (http_Request Ctx)) :
  let body := "{" ++ quoted "Response" ++ ":null}" in
  let r := mkHTTPResponse 400 (mkBody [body] None 0 false) req in
  let r' := mkHTTPResponse 400 (mkBody [] None 2 false) req in
  CheckResponse r = (Some (mkAPIError nil_Response []), r')
  /\ deref r' (APIError_Response (mkAPIError nil_Response [])) = None
  /\ Error r' (mkAPIError nil_Response []) = None.
Proof. repeat split; vm_compute; reflexivity. Qed.

(** C2: for a response whose status is outside 200..299 and whose body is
    read to its end without a failure and is not valid JSON ([parse]
    returns the syntax error [err]), [CheckResponse] returns an error that
    is not nil, points to the response, and whose message list is exactly
    one message: the fixed prefix followed by the text of [err], the error
    of [json.Unmarshal] on the bytes that the body delivered.  The response
    comes back with its body read to the end, and its status and request
    as they were.  The empty body is such a body; its message is the one of
    the unexpected end of the input. *)
Theorem CheckResponse_invalid_JSON (r : http_Response Ctx) (err : error) :
  ~ (200 <= StatusCode r <= 299) ->
  rerr (Body r) = None ->
  parse (content (Body r)) = inr err ->
  CheckResponse r
  = (Some (mkAPIError the_Response
             ["Failed to parse error response: " ++ Error_string err]),
     with_Body r
       (mkBody [] None (S (length (chunks (Body r)) + nreads (Body r)))
          (closed (Body r))))
  /\ Valid (content (Body r)) = false
  /\ (content (Body r) = ""
      -> Error_string err = "unexpected end of JSON input").
Proof.
  intros Hc Hre Hp. split; [|split].
  - unfold CheckResponse.
    destruct ((200 <=? StatusCode r) && (StatusCode r <=? 299)) eqn:E.
    { apply andb_true_iff in E as [E1 E2]. apply Z.leb_le in E1, E2. lia. }
    rewrite (ReadAll_clean _ Hre). unfold Unmarshal. rewrite Hp.
    reflexivity.
  - unfold Valid. now rewrite Hp.
  - intros Hempty. rewrite Hempty in Hp. vm_compute in Hp.
    injection Hp as <-. reflexivity.
Qed.

(** *** [APIError.Error] *)

Lemma Join_comma_joined (msgs : list string) :
  Join msgs ", " = comma_joined msgs.
Proof.
  unfold Join. induction msgs as [|m ms IH]; [reflexivity|].
  destruct ms as [|m' ms]; [reflexivity|].
  change (m ++ ", " ++ String.concat ", " (m' :: ms)
          = m ++ ", " ++ comma_joined (m' :: ms)).
  now rewrite IH.
Qed.

(** C3: the rendering of an error that has a response with a request is
    the line [<METHOD> <URL>: <STATUS> <msg1, msg2, ...>], the messages
    joined by a comma and a space in their order; for POST, /rooms, 400 and
    the two messages of the test it is exactly the expected line; and two
    errors with the same method, URL, status and messages render alike. *)
Theorem Error_rendering (r : http_Response Ctx) (e : APIError Ctx)
  (resp : http_Response Ctx) (req : http_Request Ctx) :
  deref r (APIError_Response e) = Some resp ->
  Request resp = Some req ->
  Error r e
  = Some (rendering (Method req) (fmt_URL (URL req)) (StatusCode resp) (Errors e))
  /\ (Method req = "POST" -> fmt_URL (URL req) = "/rooms" ->
      StatusCode resp = 400 ->
      Errors e = ["Invalid parameters"; "Room name is required"] ->
      Error r e
      = Some "POST /rooms: 400 Invalid parameters, Room name is required")
  /\ (forall (r2 : http_Response Ctx) (e2 : APIError Ctx)
             (resp2 : http_Response Ctx) (req2 : http_Request Ctx),
        deref r2 (APIError_Response e2) = Some resp2 ->
        Request resp2 = Some req2 ->
        Method req2 = Method req ->
        fmt_URL (URL req2) = fmt_URL (URL req) ->
        StatusCode resp2 = StatusCode resp ->
        Errors e2 = Errors e ->
        Error r2 e2 = Error r e).
Proof.
  intros Hd Hq.
  assert (Hfmt : forall (r : http_Response Ctx) (e : APIError Ctx)
                        (resp : http_Response Ctx) (req : http_Request Ctx),
    deref r (APIError_Response e) = Some resp -> Request resp = Some req ->
    Error r e
    = Some (rendering (Method req) (fmt_URL (URL req)) (StatusCode resp)
              (Errors e))).
  { intros r0 e0 resp0 req0 H0 H1. unfold Error, rendering.
    now rewrite H0, H1, Join_comma_joined. }
  split; [now apply Hfmt|]. split.
  - intros Hm Hu Hs He. rewrite (Hfmt _ _ _ _ Hd Hq), Hm, Hu, Hs, He.
    reflexivity.
  - intros r2 e2 resp2 req2 Hd2 Hq2 Hm Hu Hs He.
    rewrite (Hfmt _ _ _ _ Hd Hq), (Hfmt _ _ _ _ Hd2 Hq2).
    now rewrite Hm, Hu, Hs, He.
Qed.

(** *** [processResponseBody] and [Do] *)

Lemma readValue_eq (buf : string) (cs : list string) (re : option error)
  (n : nat) :
  readValue buf cs re n
  = match scan_stream buf with
    | Got v _ => (inl v, (cs, n))
    | Bad m => (inr (SyntaxError m), (cs, n))
    | More =>
        match cs with
        | c :: cs' => readValue (buf ++ c) cs' re (S n)
        | [] =>
            let err := default EOF re in
            (if is_EOF err then
               match scan_value (scan_fuel buf) 0 true buf with
               | Got v _ => inl v
               | _ => if nonEmpty buf then inr ErrUnexpectedEOF else inr EOF
               end
             else inr err,
             ([], S n))
        end
    end.
Proof. destruct cs; reflexivity. Qed.

(** A stream that delivers no byte and ends cleanly: the decoder reports
    [io.EOF] and has read the stream to its end. *)
Lemma readValue_no_bytes (cs : list string) (n : nat) :
  fold_right String.append "" cs = "" ->
  readValue "" cs None n = (inr EOF, ([], S (length cs + n))).
Proof.
  revert n; induction cs as [|c cs IH]; intros n Hc.
  - reflexivity.
  - simpl in Hc. apply append_eq_empty in Hc as [-> Hcs].
    rewrite readValue_eq. change (scan_stream "") with (@More json).
    change ("" ++ "") with "". rewrite (IH _ Hcs). simpl.
    repeat f_equal. lia.
Qed.

Lemma Decode_no_bytes {T} `{JSONStore T} (b : ReadCloser) (t : T) :
  content b = "" -> rerr b = None ->
  Decode b t
  = (mkBody [] None (S (length (chunks b) + nreads b)) (closed b), t, Some EOF).
Proof.
  intros Hc Hre. unfold Decode. rewrite Hre, (readValue_no_bytes _ _ Hc).
  reflexivity.
Qed.

Lemma copy_loop_ok {W} `{Writer W} (cs : list string) :
  Writer_contract W ->
  forall (w : W) written re n w' written' cs' n',
    copy_loop w written cs re n = (w', written', None, (cs', n')) ->
    received w' = received w ++ fold_right String.append "" cs /\ cs' = [].
Proof.
  intros Hcontract.
  induction cs as [|c cs IH]; intros w written re n w' written' cs' n' Hc.
  - simpl in Hc. injection Hc as <- _ _ <- _. now rewrite append_empty_r.
  - simpl in Hc. destruct (0 <? Z.of_nat (String.length c)) eqn:Hnr.
    + destruct (Write w c) as [[w1 nw] ew] eqn:Hw.
      destruct ((nw <? 0) || (Z.of_nat (String.length c) <? nw)) eqn:Hbad;
        [discriminate|].
      destruct ew as [e|]; [discriminate|].
      destruct (Z.of_nat (String.length c) =? nw) eqn:Hn; [|discriminate].
      simpl in Hc. apply Z.eqb_eq in Hn.
      apply IH in Hc as [Hrec ->]. split; [|reflexivity].
      rewrite Hrec, (Hcontract _ _ _ _ _ Hw) by lia.
      rewrite <- Hn, Nat2Z.id, substring_all, append_assoc. reflexivity.
    + apply Z.ltb_ge in Hnr.
      assert (c = "") as -> by (destruct c; [reflexivity | simpl in Hnr; lia]).
      apply IH in Hc as [Hrec ->]. now split.
Qed.

Section DestProperties.

Context {T W : Type} `{JSONStore T} `{Writer W}.

(** C4: for a response with status 204 and any destination, [Do] decodes
    nothing and reads nothing: it returns the envelope and no error, the
    destination is as it was, and the body is the body that the transport
    returned, closed, with no call of [Read] made on it. *)
Theorem Do_NoContent (c : Client Ctx World) (ctx : Ctx) (req : http_Request Ctx)
  (v : dest T W) (w w' : World) (resp : http_Response Ctx) :
  client c (WithContext req ctx) w = (inl resp, w') ->
  StatusCode resp = StatusNoContent ->
  exists env,
    Do c ctx req v w = (mkDoResult (Some env) None v, w')
    /\ env = newResponse (with_Body resp (Close (Body resp)))
    /\ chunks (Body (Response_http env)) = chunks (Body resp)
    /\ nreads (Body (Response_http env)) = nreads (Body resp)
    /\ closed (Body (Response_http env)) = true.
Proof.
  intros Hc Hs. eexists. split; [|repeat split].
  unfold Do. rewrite Hc, CheckResponse_2xx by (rewrite Hs; unfold StatusNoContent; lia).
  rewrite Hs, Z.eqb_refl, andb_false_r. reflexivity.
Qed.

(** C5: for a response with a status in 200..299 other than 204 whose body
    delivers no byte and ends cleanly, and a destination that is no
    [io.Writer], [Do] returns no error and the destination is as it was. *)
Theorem Do_empty_body (c : Client Ctx World) (ctx : Ctx) (req : http_Request Ctx)
  (v : dest T W) (w w' : World) (resp : http_Response Ctx) :
  client c (WithContext req ctx) w = (inl resp, w') ->
  200 <= StatusCode resp <= 299 ->
  StatusCode resp <> StatusNoContent ->
  content (Body resp) = "" ->
  rerr (Body resp) = None ->
  (forall wr, v <> dest_Writer wr) ->
  exists env,
    Do c ctx req v w = (mkDoResult (Some env) None v, w')
    /\ StatusCode (Response_http env) = StatusCode resp.
Proof.
  intros Hc Hs Hn Hb Hre Hv. unfold Do. rewrite Hc, CheckResponse_2xx by exact Hs.
  apply Z.eqb_neq in Hn. rewrite Hn. simpl negb. rewrite andb_true_r.
  destruct v as [|wr|t|]; simpl not_nil; cbv iota.
  - eexists. split; reflexivity.
  - destruct (Hv wr eq_refl).
  - unfold processResponseBody. rewrite (Decode_no_bytes _ _ Hb Hre).
    eexists. split; reflexivity.
  - unfold processResponseBody. rewrite (Decode_no_bytes _ _ Hb Hre).
    eexists. split; reflexivity.
Qed.

(** C6: with a destination that implements [io.Writer], the body is copied
    into it and the decoder is not involved: the result is the result of
    [io.Copy], an error of the copy is returned wrapped, and when the copy
    succeeds the writer has received the bytes of the body, all of them and
    in order, after what it had received before. *)
Theorem processResponseBody_Writer (wr wr' : W) (body body' : ReadCloser)
  (n : Z) (cerr : option error) :
  Writer_contract W ->
  Copy wr body = (wr', n, cerr, body') ->
  processResponseBody (dest_Writer wr) body
  = (option_map (Wrapped "failed to copy response body: ") cerr,
     dest_Writer wr', body')
  /\ (cerr = None ->
      received wr' = received wr ++ content body /\ consumed body' = true).
Proof.
  intros Hcontract Hcopy. split.
  - unfold processResponseBody. rewrite Hcopy. destruct cerr; reflexivity.
  - intros ->. unfold Copy in Hcopy.
    destruct (copy_loop wr 0 (chunks body) (rerr body) (nreads body))
      as [[[w1 n1] e1] [cs1 n1']] eqn:Hloop.
    injection Hcopy as <- <- -> <-.
    apply (copy_loop_ok _ Hcontract) in Hloop as [Hrec ->]. now split.
Qed.

(** C9, as the code has it: whatever the outcome, the body of a response
    that [Do] has received is closed when [Do] returns.  It is not always
    read: for a status in 200..299, with status 204 or with a nil
    destination no byte of it is read. *)
Theorem Do_closes_body (c : Client Ctx World) (ctx : Ctx) (req : http_Request Ctx)
  (v : dest T W) (w w' : World) (resp : http_Response Ctx) :
  client c (WithContext req ctx) w = (inl resp, w') ->
  exists env err v',
    Do c ctx req v w = (mkDoResult (Some env) err v', w')
    /\ closed (Body (Response_http env)) = true
    /\ (200 <= StatusCode resp <= 299 ->
        StatusCode resp = StatusNoContent \/ v = dest_nil ->
        chunks (Body (Response_http env)) = chunks (Body resp)
        /\ nreads (Body (Response_http env)) = nreads (Body resp)).
Proof.
  intros Hc. unfold Do. rewrite Hc.
  destruct (CheckResponse resp) as [[e|] r1] eqn:Hcheck.
  - do 3 eexists. split; [reflexivity|]. split; [reflexivity|].
    intros Hs _. rewrite CheckResponse_2xx in Hcheck by exact Hs. discriminate.
  - destruct (not_nil v && negb (StatusCode r1 =? StatusNoContent)) eqn:Hcond.
    + destruct (processResponseBody v (Body r1)) as [[err v'] body] eqn:Hp.
      do 3 eexists. split; [reflexivity|]. split; [reflexivity|].
      intros Hs Hskip. rewrite CheckResponse_2xx in Hcheck by exact Hs.
      injection Hcheck as <-. apply andb_true_iff in Hcond as [Hv Hn].
      destruct Hskip as [Hskip | ->]; [|discriminate].
      rewrite Hskip, Z.eqb_refl in Hn. discriminate.
    + do 3 eexists. split; [reflexivity|]. split; [reflexivity|].
      intros Hs _. rewrite CheckResponse_2xx in Hcheck by exact Hs.
      injection Hcheck as <-. split; reflexivity.
Qed.

End DestProperties.

(** *** The request builders *)

Lemma http_NewRequestWithContext_Header (ctx : option Ctx)
  (method url : string) (body : option string) (req : http_Request Ctx) :
  http_NewRequestWithContext ctx method url body = inl req ->
  Header req = ∅.
Proof.
  unfold http_NewRequestWithContext.
  destruct (negb (validMethod _)); [discriminate|].
  destruct ctx; [|discriminate]. destruct (url_Parse url); [|discriminate].
  now intros [= <-].
Qed.

Lemma set_headers_spec (c : Client Ctx World) (ct : option string) (req : http_Request Ctx) :
  Header req = ∅ ->
  headers_set c (default "" ct) (has_body ct) (set_headers c ct req).
Proof.
  intros Hh. unfold headers_set, set_headers, Header_Get, Header_has, Header_Set.
  simpl Header. rewrite Hh.
  change (CanonicalMIMEHeaderKey "Accept") with "Accept".
  change (CanonicalMIMEHeaderKey "User-Agent") with "User-Agent".
  change (CanonicalMIMEHeaderKey "X-ChatWorkToken") with "X-Chatworktoken".
  change (CanonicalMIMEHeaderKey "Content-Type") with "Content-Type".
  destruct ct as [ct|]; simpl; repeat split; intros;
    by simplify_map_eq.
Qed.

Section BuilderProperties.

Context {B : Type} `{JSONEncoder B} `{FormEncoder B}.

(** The base that JSON mode joins the path to ends with no slash. *)
Lemma TrimRight_slash_no_suffix (s : string) :
  HasSuffix_slash (TrimRight_slash s) = false.
Proof.
  induction s as [|c s IH]; [reflexivity|]. simpl TrimRight_slash.
  destruct (TrimRight_slash s) as [|d t] eqn:E.
  - destruct (Ascii.eqb c "/") eqn:Ec; simpl; [reflexivity | exact Ec].
  - exact IH.
Qed.

(** In JSON mode a path without a leading slash and the same path with one
    build the same request. *)
Lemma NewRequestWithContext_leading_slash (c : Client Ctx World) (ctx : option Ctx)
  (method path : string) (body : option B) :
  HasPrefix_slash path = false ->
  NewRequestWithContext c ctx method path body
  = NewRequestWithContext c ctx method ("/" ++ path) body.
Proof. intros Hp. unfold NewRequestWithContext. now rewrite Hp. Qed.

(** C8: a request built by either builder carries [Accept:
    application/json], the configured [User-Agent] and the token in
    [X-ChatWorkToken], with or without a body; it carries [Content-Type]
    if and only if a body is given, [application/json] in JSON mode and
    [application/x-www-form-urlencoded] in form mode. *)
Theorem builders_set_headers (c : Client Ctx World) (ctx : option Ctx)
  (method urlStr : string) (body : option B) (req : http_Request Ctx) :
  (NewRequestWithContext c ctx method urlStr body = inl req ->
   headers_set c "application/json" (has_body body) req)
  /\ (NewFormRequestWithContext c ctx method urlStr body = inl req ->
      headers_set c "application/x-www-form-urlencoded" (has_body body) req).
Proof.
  split.
  - unfold NewRequestWithContext.
    destruct (url_Parse _) as [u|]; [|discriminate].
    destruct body as [b|]; [destruct (json_Encode b); [|discriminate]|];
      (destruct (http_NewRequestWithContext _ _ _ _) as [req0|] eqn:Hreq;
       [|discriminate]);
      intros [= <-]; apply http_NewRequestWithContext_Header in Hreq;
      [ apply (set_headers_spec c (Some "application/json") req0 Hreq)
      | destruct (set_headers_spec c None req0 Hreq) as (?&?&?&?&?);
        repeat split; try assumption; discriminate ].
  - unfold NewFormRequestWithContext.
    destruct (URL_Parse _ _) as [u|]; [|discriminate].
    destruct body as [b|]; [destruct (form_Encode b); [|discriminate]|];
      (destruct (http_NewRequestWithContext _ _ _ _) as [req0|] eqn:Hreq;
       [|discriminate]);
      intros [= <-]; apply http_NewRequestWithContext_Header in Hreq;
      [ apply (set_headers_spec c (Some "application/x-www-form-urlencoded")
                 req0 Hreq)
      | destruct (set_headers_spec c None req0 Hreq) as (?&?&?&?&?);
        repeat split; try assumption; discriminate ].
Qed.

End BuilderProperties.

(** *** The message endpoints *)

Section MessagesProperties.

Context `{FormEncoder (option MessageCreateParams)}.
Context `{JSONStore MessageCreatedResponse}.
Variable Background : Ctx.

(** C10: for every context, room, body and state of the world,
    [SendMessage] returns what [Create] returns for the parameters with
    that body and the self-unread flag off: the created message, the
    envelope and the error, and it leaves the world in the same state. *)
Theorem SendMessage_is_Create (s : Client Ctx World) (ctx : Ctx) (roomID : Z)
  (body : string) (w : World) :
  SendMessage Background s ctx roomID body w
  = SendMessage_as_documented Background s ctx roomID body w.
Proof. reflexivity. Qed.

End MessagesProperties.

End Properties.

(** ** Further properties of the pipeline *)

Section DoProperties.

Context {net_url : NetURL} {Ctx World : Type}.
Context {store_Response : JSONStore (http_Response Ctx)}.
Context {store_strings : JSONStore (list string)}.
Context {T W : Type} `{JSONStore T} `{Writer W}.

(** X1: [Do] returns no envelope exactly when the transport fails; it then
    returns the error of the transport and leaves the destination as it
    was. *)
Theorem Do_envelope_iff_response (c : Client Ctx World) (ctx : Ctx)
  (req : http_Request Ctx) (v : dest T W) (w : World) :
  (do_Response (fst (Do c ctx req v w)) = None
   <-> exists err, fst (client c (WithContext req ctx) w) = inr err)
  /\ (forall err,
        fst (client c (WithContext req ctx) w) = inr err ->
        fst (Do c ctx req v w) = mkDoResult None (Some (err_other err)) v).
Proof.
  unfold Do. destruct (client c (WithContext req ctx) w) as [[resp|err] w1].
  - split.
    + split.
      * destruct (CheckResponse resp) as [[e|] r1]; [discriminate|].
        destruct (not_nil v && negb (StatusCode r1 =? StatusNoContent));
          [destruct (processResponseBody v (Body r1)) as [[? ?] ?]|];
          discriminate.
      * intros [err Herr]. discriminate.
    + intros err Herr. discriminate.
  - split.
    + split; [eauto | reflexivity].
    + intros err' [= <-]. reflexivity.
Qed.

(** X2: for a response with a status outside 200..299, [Do] returns the
    envelope together with the error of [CheckResponse], and does nothing
    with the destination, whatever it is: nothing is decoded and nothing is
    written. *)
Theorem Do_error_status (c : Client Ctx World) (ctx : Ctx)
  (req : http_Request Ctx) (v : dest T W) (w w' : World)
  (resp : http_Response Ctx) :
  client c (WithContext req ctx) w = (inl resp, w') ->
  ~ (200 <= StatusCode resp <= 299) ->
  exists e r',
    CheckResponse resp = (Some e, r')
    /\ Do c ctx req v w
       = (mkDoResult (Some (newResponse (with_Body r' (Close (Body r')))))
            (Some (err_API e)) v, w').
Proof.
  intros Hc Hs. destruct (CheckResponse_not_2xx resp Hs) as (e & r' & Hcheck).
  exists e, r'. split; [exact Hcheck|]. unfold Do. now rewrite Hc, Hcheck.
Qed.

End DoProperties.

Section CheckResponseProperties.

Context {net_url : NetURL} {Ctx : Type}.
Context {store_Response : JSONStore (http_Response Ctx)}.

Lemma EOF_to_nil_other (e : error) :
  is_EOF e = false -> EOF_to_nil (Some e) = Some e.
Proof. destruct e; [discriminate | reflexivity..]. Qed.

(** X4: when reading the body of an error response fails, [CheckResponse]
    does not report the failure of the read: it returns the error for the
    status with no message, whatever had been read, and the response keeps
    its status. *)
Theorem CheckResponse_read_error {store_strings : JSONStore (list string)}
  (r : http_Response Ctx) (e : error) :
  ~ (200 <= StatusCode r <= 299) ->
  rerr (Body r) = Some e ->
  is_EOF e = false ->
  exists r',
    CheckResponse r = (Some (mkAPIError the_Response []), r')
    /\ StatusCode r' = StatusCode r
    /\ Request r' = Request r
    /\ chunks (Body r') = [].
Proof.
  intros Hc Hre He. unfold CheckResponse.
  destruct ((200 <=? StatusCode r) && (StatusCode r <=? 299)) eqn:E.
  { apply andb_true_iff in E as [E1 E2]. apply Z.leb_le in E1, E2. lia. }
  unfold ReadAll. rewrite readAll_loop_spec, Hre. simpl default.
  rewrite (EOF_to_nil_other e He). eexists. repeat split.
Qed.

End CheckResponseProperties.

Section ServerMessages.

Context {net_url : NetURL} {Ctx : Type}.
Context {store_Response : JSONStore (http_Response Ctx)}.

Lemma store_string_slice_strings (msgs old : list string) :
  store_string_slice (JArr (map JStr msgs)) old = Stored msgs None.
Proof.
  unfold store_string_slice.
  assert (Hfst : map fst (map store_string_elem (map JStr msgs)) = msgs).
  { induction msgs as [|m msgs IH]; [reflexivity|]. simpl. now rewrite IH. }
  assert (Hsnd : fold_left saveError
                   (map snd (map store_string_elem (map JStr msgs))) None
                 = None).
  { clear Hfst. induction msgs as [|m msgs IH]; [reflexivity|]. exact IH. }
  now rewrite Hfst, Hsnd.
Qed.

Lemma store_members_other (kvs : list (string * json)) :
  forall (e : APIError Ctx) (r : http_Response Ctx) (saved : option error),
    forallb other_member kvs = true ->
    store_members kvs e r saved = Stored (e, r) saved.
Proof.
  induction kvs as [|[k v] kvs IH]; intros e r saved Hall; [reflexivity|].
  simpl in Hall. apply andb_true_iff in Hall as [Hk Hall].
  unfold other_member in Hk. simpl in Hk.
  apply andb_true_iff in Hk as [He Hr].
  apply negb_true_iff in He, Hr.
  simpl. unfold store_member. rewrite Hr, He. simpl.
  rewrite (IH e r _ Hall). now destruct saved.
Qed.

Lemma errors_key_not_Response (k : string) :
  field_matches k "errors" = true -> field_matches k "Response" = false.
Proof.
  unfold field_matches. intros Hk. apply String.eqb_eq in Hk. now rewrite Hk.
Qed.

Lemma store_members_errors (pre post : list (string * json)) (k : string)
  (msgs : list string) (e : APIError Ctx) (r : http_Response Ctx)
  (saved : option error) :
  field_matches k "errors" = true ->
  forallb other_member pre = true ->
  forallb other_member post = true ->
  store_members (pre ++ (k, JArr (map JStr msgs)) :: post) e r saved
  = Stored (mkAPIError (APIError_Response e) msgs, r) saved.
Proof.
  intros Hk Hpre Hpost. revert saved.
  induction pre as [|[k0 v0] pre IH]; intros saved.
  - simpl. unfold store_member.
    rewrite (errors_key_not_Response k Hk), Hk.
    change (json_store (JArr (map JStr msgs)) (Errors e))
      with (store_string_slice (JArr (map JStr msgs)) (Errors e)).
    rewrite store_string_slice_strings.
    rewrite (store_members_other post _ _ _ Hpost). now destruct saved.
  - simpl in Hpre. apply andb_true_iff in Hpre as [Hk0 Hpre].
    unfold other_member in Hk0. simpl in Hk0.
    apply andb_true_iff in Hk0 as [He Hr]. apply negb_true_iff in He, Hr.
    simpl. unfold store_member at 1. rewrite Hr, He.
    rewrite (IH Hpre). now destruct saved.
Qed.

(** X5: an error body of the documented shape, an object whose member
    [errors] is an array of strings, gives the error with exactly these
    strings, in the order of the body; members with other keys change
    nothing. *)
Theorem CheckResponse_server_messages (r : http_Response Ctx)
  (pre post : list (string * json)) (k : string) (msgs : list string) :
  ~ (200 <= StatusCode r <= 299) ->
  rerr (Body r) = None ->
  parse (content (Body r))
  = inl (JObj (pre ++ (k, JArr (map JStr msgs)) :: post)) ->
  field_matches k "errors" = true ->
  forallb other_member pre = true ->
  forallb other_member post = true ->
  exists r',
    CheckResponse r = (Some (mkAPIError the_Response msgs), r')
    /\ StatusCode r' = StatusCode r.
Proof.
  intros Hc Hre Hp Hk Hpre Hpost. unfold CheckResponse.
  destruct ((200 <=? StatusCode r) && (StatusCode r <=? 299)) eqn:E.
  { apply andb_true_iff in E as [E1 E2]. apply Z.leb_le in E1, E2. lia. }
  rewrite (ReadAll_clean _ Hre). unfold Unmarshal. rewrite Hp.
  cbn [json_store store_APIError fst snd].
  rewrite (store_members_errors pre post k msgs _ _ None Hk Hpre Hpost).
  simpl. eexists. split; reflexivity.
Qed.

End ServerMessages.

Section BlankBody.

Lemma skip_space_app_blank (a b : string) :
  skip_space (a ++ b) = "" -> skip_space a = "" /\ skip_space b = "".
Proof.
  induction a as [|c a IH]; intros Hab.
  - now split.
  - rewrite append_cons in Hab. simpl in *.
    destruct (is_space c); [now apply IH | discriminate].
Qed.

Lemma skip_space_blank_app (a b : string) :
  skip_space a = "" -> skip_space (a ++ b) = skip_space b.
Proof.
  induction a as [|c a IH]; intros Ha; [reflexivity|].
  rewrite append_cons. simpl in *.
  destruct (is_space c); [now apply IH | discriminate].
Qed.

Lemma scan_value_blank (s : string) (fuel depth : nat) (eof : bool) :
  skip_space s = "" -> scan_value (S fuel) depth eof s = More.
Proof. intros Hs. simpl. now rewrite Hs. Qed.

Lemma scan_fuel_S (s : string) : exists f, scan_fuel s = S f.
Proof. unfold scan_fuel. exists (S (2 * String.length s)). lia. Qed.

Lemma scan_stream_blank (buf : string) :
  skip_space buf = "" -> scan_stream buf = More.
Proof.
  intros Hs. unfold scan_stream. destruct (scan_fuel_S buf) as [f ->].
  now rewrite (scan_value_blank buf f 0 false Hs).
Qed.

(** A stream of white space that ends cleanly: the decoder reports
    [io.EOF] after it has read the stream to its end. *)
Lemma readValue_blank (cs : list string) :
  forall (buf : string) (n : nat),
    nonEmpty (buf ++ fold_right String.append "" cs) = false ->
    readValue buf cs None n = (inr EOF, ([], S (length cs + n))).
Proof.
  induction cs as [|c cs IH]; intros buf n Hb.
  - simpl in Hb. rewrite append_empty_r in Hb.
    assert (Hs : skip_space buf = "").
    { unfold nonEmpty in Hb. now destruct (skip_space buf). }
    rewrite readValue_eq, (scan_stream_blank buf Hs). simpl.
    destruct (scan_fuel_S buf) as [f ->].
    rewrite (scan_value_blank buf f 0 true Hs), Hb. reflexivity.
  - assert (Hs : skip_space buf = "").
    { unfold nonEmpty in Hb.
      destruct (skip_space (buf ++ _)) eqn:E; [|discriminate].
      now apply skip_space_app_blank in E. }
    rewrite readValue_eq, (scan_stream_blank buf Hs).
    simpl in Hb. rewrite <- append_assoc in Hb. rewrite (IH _ _ Hb).
    simpl. repeat f_equal. lia.
Qed.

Lemma Decode_blank {T} `{JSONStore T} (b : ReadCloser) (t : T) :
  nonEmpty (content b) = false -> rerr b = None ->
  Decode b t
  = (mkBody [] None (S (length (chunks b) + nreads b)) (closed b), t, Some EOF).
Proof.
  intros Hc Hre. unfold Decode. rewrite Hre, (readValue_blank _ "" _ Hc).
  reflexivity.
Qed.

Context {net_url : NetURL} {Ctx World : Type}.
Context {store_Response : JSONStore (http_Response Ctx)}.
Context {store_strings : JSONStore (list string)}.
Context {T W : Type} `{JSONStore T} `{Writer W}.

(** X6: a body of white space only counts as an empty body: for a status in
    200..299 other than 204 and a destination that is no [io.Writer], [Do]
    returns no error, leaves the destination as it was, and has read the
    body to its end. *)
Theorem Do_blank_body (c : Client Ctx World) (ctx : Ctx)
  (req : http_Request Ctx) (v : dest T W) (w w' : World)
  (resp : http_Response Ctx) :
  client c (WithContext req ctx) w = (inl resp, w') ->
  200 <= StatusCode resp <= 299 ->
  StatusCode resp <> StatusNoContent ->
  nonEmpty (content (Body resp)) = false ->
  rerr (Body resp) = None ->
  v <> dest_nil ->
  (forall wr, v <> dest_Writer wr) ->
  exists env,
    Do c ctx req v w = (mkDoResult (Some env) None v, w')
    /\ chunks (Body (Response_http env)) = []
    /\ closed (Body (Response_http env)) = true.
Proof.
  intros Hc Hs Hn Hb Hre Hnil Hv. unfold Do.
  rewrite Hc, CheckResponse_2xx by exact Hs.
  apply Z.eqb_neq in Hn. rewrite Hn. simpl negb. rewrite andb_true_r.
  destruct v as [|wr|t|]; simpl not_nil; cbv iota.
  - now destruct Hnil.
  - destruct (Hv wr eq_refl).
  - unfold processResponseBody. rewrite (Decode_blank _ _ Hb Hre).
    eexists. repeat split.
  - unfold processResponseBody. rewrite (Decode_blank _ _ Hb Hre).
    eexists. repeat split.
Qed.

End BlankBody.

Section NewProperties.

Context {net_url : NetURL} {Ctx World : Type}.

Lemma options_keep_configuration (l : list (http_Client Ctx World + bool)) :
  forall c0 : Client Ctx World,
    let c := fold_left (fun c option => option c) (map as_ClientOption l) c0 in
    BaseURL c = BaseURL c0 /\ UserAgent c = UserAgent c0 /\ token c = token c0.
Proof.
  induction l as [|[tr|d] l IH]; intros c0; [now repeat split|..]; simpl;
    destruct (IH (as_ClientOption (inl tr) c0)) as (H1 & H2 & H3) ||
    destruct (IH (as_ClientOption (inr d) c0)) as (H1 & H2 & H3);
    repeat split; assumption.
Qed.

Lemma debug_options_keep_client (ds : list bool) :
  forall c0 : Client Ctx World,
    fold_left (fun c option => option c)
      (map as_ClientOption (map inr ds)) c0 = c0.
Proof. induction ds as [|d ds IH]; intros c0; [reflexivity | apply IH]. Qed.

(** X7: whatever options of the package are given, in whatever order, the
    client that [New] returns has the token it was given, the default user
    agent and the default base address; its transport is the one of the
    last [OptionHTTPClient], and the default one when there is none.
    [OptionDebug] changes nothing. *)
Theorem New_options (zeroClient : http_Client Ctx World) (tok : string)
  (l : list (http_Client Ctx World + bool)) (c : Client Ctx World) :
  New zeroClient tok (map as_ClientOption l) = Some c ->
  token c = tok
  /\ UserAgent c = userAgent
  /\ url_Parse defaultBaseURL = inl (BaseURL c)
  /\ (forall l1 tr ds, l = (l1 ++ inl tr :: map inr ds)%list -> client c = tr)
  /\ (forall ds, l = map inr ds -> client c = zeroClient).
Proof.
  unfold New. destruct (url_Parse defaultBaseURL) as [baseURL|]; [|discriminate].
  intros [= <-].
  destruct (options_keep_configuration l
              (mkClient zeroClient baseURL userAgent tok)) as (H1 & H2 & H3).
  simpl in H1, H2, H3. repeat split.
  - exact H3.
  - exact H2.
  - now rewrite H1.
  - intros l1 tr ds ->. rewrite map_app, fold_left_app. simpl.
    now rewrite debug_options_keep_client.
  - intros ds ->. now rewrite debug_options_keep_client.
Qed.

End NewProperties.

Section BaseSlash.

Context {net_url : NetURL} {Ctx World : Type} {B : Type} `{JSONEncoder B}.

Lemma TrimRight_slash_app_slash (s : string) :
  TrimRight_slash (s ++ "/") = TrimRight_slash s.
Proof.
  induction s as [|c s IH]; [reflexivity|].
  rewrite append_cons. simpl. now rewrite IH.
Qed.

(** X8: in JSON mode slashes at the end of the base address do not count:
    two clients with the same agent and token whose base addresses differ
    by one slash at the end build the same request. *)
Theorem NewRequestWithContext_base_slash (c1 c2 : Client Ctx World)
  (ctx : option Ctx) (method urlStr : string) (body : option B) :
  url_String (BaseURL c1) = url_String (BaseURL c2) ++ "/" ->
  UserAgent c1 = UserAgent c2 ->
  token c1 = token c2 ->
  NewRequestWithContext c1 ctx method urlStr body
  = NewRequestWithContext c2 ctx method urlStr body.
Proof.
  intros Hb Hu Ht. unfold NewRequestWithContext, set_headers.
  now rewrite Hb, TrimRight_slash_app_slash, Hu, Ht.
Qed.

End BaseSlash.

Section EndpointProperties.

Context {net_url : NetURL} {Ctx World : Type}.
Context {store_Response : JSONStore (http_Response Ctx)}.
Context {store_strings : JSONStore (list string)}.

(** [Do] gives back a destination of the kind it was given. *)
Lemma Do_keeps_dest_value {T W : Type} `{JSONStore T} `{Writer W}
  (c : Client Ctx World) (ctx : Ctx) (req : http_Request Ctx) (t : T)
  (w : World) :
  exists t', do_v (fst (Do (W := W) c ctx req (dest_value t) w)) = dest_value t'.
Proof.
  unfold Do. destruct (client c (WithContext req ctx) w) as [[resp|err] w1];
    [|eexists; reflexivity].
  destruct (CheckResponse resp) as [[e|] r1]; [eexists; reflexivity|].
  destruct (not_nil (dest_value t) && negb (StatusCode r1 =? StatusNoContent));
    [|eexists; reflexivity].
  unfold processResponseBody.
  destruct (Decode (Body r1) t) as [[body' t'] decErr]. eexists; reflexivity.
Qed.

Lemma Do_no_envelope {T W : Type} `{JSONStore T} `{Writer W}
  (c : Client Ctx World) (ctx : Ctx) (req : http_Request Ctx) (v : dest T W)
  (w : World) :
  do_Response (fst (Do c ctx req v w)) = None ->
  exists e, do_err (fst (Do c ctx req v w)) = Some (err_other e).
Proof.
  intros Hnone.
  destruct (Do_envelope_iff_response c ctx req v w) as [[Hiff _] Hfail].
  destruct (Hiff Hnone) as [err Herr]. exists err. now rewrite (Hfail err Herr).
Qed.

Section MessagesProperties2.

Context `{FormEncoder (option MessageCreateParams)}.
Context `{JSONStore MessageCreatedResponse}.
Context `{JSONStore Message.t}.
Variable Background : Ctx.

(** X9: [Create] returns a created message exactly when it returns no
    error, and it returns no envelope only together with an error that is
    no [*APIError]: the request could not be built or the transport
    failed. *)
Theorem Create_result_or_error (s : Client Ctx World) (ctx : Ctx)
  (roomID : Z) (params : option MessageCreateParams) (w : World) :
  let '((result, resp, err), _) := Create Background s ctx roomID params w in
  (result = None <-> err <> None)
  /\ (resp = None -> exists e, err = Some (err_other e)).
Proof.
  unfold Create.
  destruct (NewFormRequest _ _ _ _ _) as [req|e].
  - pose proof (Do_keeps_dest_value (W := Empty_set) s ctx req
                  (mkMessageCreatedResponse "") w) as [t' Ht'].
    pose proof (Do_no_envelope (W := Empty_set) s ctx req
                  (dest_value (mkMessageCreatedResponse "")) w) as Hnone.
    destruct (Do s ctx req (dest_value (mkMessageCreatedResponse "")) w)
      as [res w1]. simpl in Ht', Hnone.
    destruct (do_err res) as [err|] eqn:Herr.
    + split; [split; [discriminate | reflexivity]|].
      intros Hr. destruct (Hnone Hr) as [e He]. exists e. congruence.
    + rewrite Ht'. split; [split; [discriminate | congruence]|].
      intros Hr. destruct (Hnone Hr) as [e He]. discriminate.
  - split; [split; [discriminate | reflexivity]|]. eauto.
Qed.

Lemma mentions_loop_from (ids : list Z) (acc : string) :
  fold_left (fun mentions id => mentions ++ "[To:" ++ Itoa id ++ "] ") ids acc
  = acc ++ mention_tags ids.
Proof.
  revert acc; induction ids as [|id ids IH]; intros acc; simpl.
  - now rewrite append_empty_r.
  - rewrite IH, !append_assoc. reflexivity.
Qed.

(** X10: [SendTo] sends what [SendMessage] sends for the body that has one
    tag [[To:id] ] per account before it, in the order of the accounts;
    without accounts it is [SendMessage]. *)
Theorem SendTo_mentions (s : Client Ctx World) (ctx : Ctx) (roomID : Z)
  (accountIDs : list Z) (body : string) (w : World) :
  MessagesService.SendTo Background s ctx roomID accountIDs body w
  = SendMessage Background s ctx roomID (mention_tags accountIDs ++ body) w
  /\ MessagesService.SendTo Background s ctx roomID [] body w
     = SendMessage Background s ctx roomID body w.
Proof.
  split; [|reflexivity].
  unfold MessagesService.SendTo, SendMessage, MessagesService.mentions_loop.
  now rewrite mentions_loop_from.
Qed.

(** X11: [Quote] first fetches the message.  When that fails it sends
    nothing more and returns the error of the fetch, without result and
    without envelope.  When it succeeds the message is there (no nil
    pointer is read), and [Quote] is [Create] for the quoted text, from the
    state that the fetch left. *)
Theorem Quote_after_Get (s : Client Ctx World) (ctx : Ctx) (roomID : Z)
  (messageID body : string) (w w1 : World) (m : option Message.t)
  (resp : option (Response Ctx)) (err : option (DoError Ctx)) :
  MessagesService.Get Background s ctx roomID messageID w
  = ((m, resp, err), w1) ->
  match err with
  | Some e =>
      MessagesService.Quote Background s ctx roomID messageID body w
      = Some ((None, None, Some e), w1)
  | None =>
      exists message,
        m = Some message
        /\ MessagesService.Quote Background s ctx roomID messageID body w
           = Some (Create Background s ctx roomID
                     (Some {| Params_Body :=
                                MessagesService.quotedBody message body;
                              SelfUnread := false |}) w1)
  end.
Proof.
  intros Hget. unfold MessagesService.Quote. rewrite Hget.
  destruct err as [e|]; [reflexivity|].
  unfold MessagesService.Get in Hget.
  destruct (NewRequest _ _ _ _ _) as [req|e]; [|discriminate].
  pose proof (Do_keeps_dest_value (W := Empty_set) s ctx req Message.zero w)
    as [t' Ht'].
  destruct (Do s ctx req (dest_value Message.zero) w) as [res w2].
  simpl in Ht'. destruct (do_err res); [discriminate|].
  rewrite Ht' in Hget. injection Hget as <- _ _. exists t'. split; reflexivity.
Qed.

End MessagesProperties2.

Section MyTasksProperties.

Context {queries : URLQuery}.
Context `{JSONStore (list (option MyTask.t))}.
Variable Background : Ctx.

Lemma NewRequest_has_URL {B : Type} `{JSONEncoder B} (s : Client Ctx World)
  (method urlStr : string) (body : option B) (req : http_Request Ctx) :
  NewRequest Background s method urlStr body = inl req ->
  exists u, URL req = Some u.
Proof.
  unfold NewRequest, NewRequestWithContext, http_NewRequestWithContext.
  destruct (url_Parse _) as [u|]; [|discriminate].
  destruct (match body with Some b => _ | None => _ end) as [buf|];
    [|discriminate].
  destruct (negb (validMethod _)); [discriminate|].
  destruct (url_Parse (url_String u)) as [u'|]; [|discriminate].
  intros [= <-]. simpl. eauto.
Qed.

(** X14: [List] never reads the query of a request that has no URL:
    whatever the parameters, it returns. *)
Theorem List_returns (s : Client Ctx World) (ctx : Ctx)
  (params : option MyTasksService.MyTaskListParams) (w : World) :
  exists result w',
    MyTasksService.List Background s ctx params w = Some (result, w').
Proof.
  unfold MyTasksService.List.
  destruct (NewRequest _ _ _ _ _) as [req|e] eqn:Hreq; [|eauto].
  destruct (NewRequest_has_URL s "GET" "my/tasks" None req Hreq) as [u Hu].
  destruct params as [params|]; [rewrite Hu|];
    (destruct (Do _ _ _ _ _) as [res w1]; destruct (do_err res); eauto).
Qed.

Lemma room_loop_filter (roomID : Z) (l : list (option MyTask.t)) :
  forall acc,
    Forall (fun task => task <> None) l ->
    MyTasksService.room_loop roomID l acc
    = Some (acc ++ List.filter (in_room roomID) l)%list.
Proof.
  induction l as [|[t|] l IH]; intros acc Hall; simpl.
  - now rewrite app_nil_r.
  - inversion Hall as [|? ? _ Hl]; subst.
    destruct (TaskRoom.RoomID (MyTask.Room t) =? roomID).
    + rewrite (IH _ Hl), <- app_assoc. reflexivity.
    + apply (IH _ Hl).
  - inversion Hall as [|? ? Hn _]; subst. now destruct Hn.
Qed.

Lemma room_loop_nil_task (roomID : Z) (l : list (option MyTask.t)) :
  forall acc, In None l -> MyTasksService.room_loop roomID l acc = None.
Proof.
  induction l as [|[t|] l IH]; intros acc Hin; simpl.
  - destruct Hin.
  - destruct Hin as [Hin|Hin]; [discriminate|].
    destruct (TaskRoom.RoomID (MyTask.Room t) =? roomID); now apply IH.
  - reflexivity.
Qed.

(** X12: [GetByRoom] lists all the tasks and keeps those of the room: when
    the listing fails it returns its error and envelope and no task; when
    it succeeds and no task is a nil pointer it returns exactly the tasks
    whose room is [roomID], in the order of the listing, with the envelope
    of the listing; and it panics when a task of the listing is nil. *)
Theorem GetByRoom_filters (s : Client Ctx World) (ctx : Ctx) (roomID : Z)
  (w w1 : World) (all : option (list (option MyTask.t)))
  (resp : option (Response Ctx)) (err : option (DoError Ctx)) :
  MyTasksService.List Background s ctx None w = Some ((all, resp, err), w1) ->
  match err with
  | Some e =>
      MyTasksService.GetByRoom Background s ctx roomID w
      = Some ((None, resp, Some e), w1)
  | None =>
      (Forall (fun task => task <> None) (default [] all) ->
       MyTasksService.GetByRoom Background s ctx roomID w
       = Some ((Some (List.filter (in_room roomID) (default [] all)), resp,
                None), w1))
      /\ (In None (default [] all) ->
          MyTasksService.GetByRoom Background s ctx roomID w = None)
  end.
Proof.
  intros Hlist. unfold MyTasksService.GetByRoom. rewrite Hlist.
  destruct err as [e|]; [reflexivity|]. split; intros Hall.
  - now rewrite (room_loop_filter roomID _ [] Hall).
  - now rewrite (room_loop_nil_task roomID _ [] Hall).
Qed.

End MyTasksProperties.

End EndpointProperties.

Section BufferDestination.

Context {net_url : NetURL} {Ctx World : Type}.
Context {store_Response : JSONStore (http_Response Ctx)}.
Context {store_strings : JSONStore (list string)}.
Context {T : Type} `{JSONStore T}.

Lemma length_append (a b : string) :
  String.length (a ++ b) = (String.length a + String.length b)%nat.
Proof.
  induction a as [|c a IH]; [reflexivity|]. rewrite append_cons. simpl.
  now rewrite IH.
Qed.

Lemma copy_loop_Buffer (cs : list string) :
  forall (buf : Buffer) (written : Z) (re : option error) (n : nat),
    copy_loop buf written cs re n
    = (mkBuffer (Buffer_bytes buf ++ fold_right String.append "" cs),
       written + Z.of_nat (String.length (fold_right String.append "" cs)),
       EOF_to_nil (Some (default EOF re)), ([], S (length cs + n))).
Proof.
  induction cs as [|c cs IH]; intros buf written re n.
  - simpl. rewrite append_empty_r, Z.add_0_r. now destruct buf.
  - simpl copy_loop. destruct (0 <? Z.of_nat (String.length c)) eqn:Hnr.
    + cbn [Write Writer_Buffer Buffer_Write].
      assert (Hok : (Z.of_nat (String.length c) <? 0)
                    || (Z.of_nat (String.length c) <? Z.of_nat (String.length c))
                    = false).
      { apply orb_false_iff. split; apply Z.ltb_ge; lia. }
      rewrite Hok, Z.eqb_refl. simpl negb. cbv iota. rewrite IH. simpl.
      rewrite append_assoc, length_append.
      replace (S (length cs + S n)) with (S (S (length cs + n))) by lia.
      now rewrite Nat2Z.inj_add, Z.add_assoc.
    + apply Z.ltb_ge in Hnr.
      assert (c = "") as -> by (destruct c; [reflexivity | simpl in Hnr; lia]).
      rewrite IH. simpl.
      replace (S (length cs + S n)) with (S (S (length cs + n))) by lia.
      reflexivity.
Qed.

(** X13: with a [*bytes.Buffer] for destination and a status in 200..299
    other than 204, [Do] appends to the buffer every byte that the body
    delivers, in order, and reads the body to its end; the error is nil
    when the body ends cleanly, and the wrapped error of the read
    otherwise. *)
Theorem Do_into_Buffer (c : Client Ctx World) (ctx : Ctx)
  (req : http_Request Ctx) (buf : Buffer) (w w' : World)
  (resp : http_Response Ctx) :
  client c (WithContext req ctx) w = (inl resp, w') ->
  200 <= StatusCode resp <= 299 ->
  StatusCode resp <> StatusNoContent ->
  exists env,
    Do (T := T) c ctx req (dest_Writer buf) w
    = (mkDoResult (Some env)
         (option_map
            (fun e => err_other (Wrapped "failed to copy response body: " e))
            (EOF_to_nil (Some (default EOF (rerr (Body resp))))))
         (dest_Writer (mkBuffer (Buffer_bytes buf ++ content (Body resp)))),
       w')
    /\ chunks (Body (Response_http env)) = []
    /\ closed (Body (Response_http env)) = true.
Proof.
  intros Hc Hs Hn. unfold Do. rewrite Hc, CheckResponse_2xx by exact Hs.
  apply Z.eqb_neq in Hn. rewrite Hn. cbn [not_nil negb andb].
  unfold processResponseBody, Copy. rewrite copy_loop_Buffer. unfold content.
  generalize (EOF_to_nil (Some (default EOF (rerr (Body resp))))).
  intros [e|]; eexists; repeat split.
Qed.

End BufferDestination.

Section ErrorBodyRead.

Context {net_url : NetURL} {Ctx : Type}.
Context {store_Response : JSONStore (http_Response Ctx)}.
Context {store_strings : JSONStore (list string)}.

(** X15: for a status outside 200..299, [CheckResponse] reads the body to
    its end, whatever it holds and whether or not it parses: when the body
    is not an object with a member named [Response], the response comes
    back with nothing left to read, one [Read] per chunk and one for the
    end, not closed, and otherwise unchanged. *)
Theorem CheckResponse_reads_body (r : http_Response Ctx) :
  ~ (200 <= StatusCode r <= 299) ->
  (forall j, parse (content (Body r)) = inl j -> names_Response j = false) ->
  exists e,
    CheckResponse r
    = (Some e,
       with_Body r
         (mkBody [] (rerr (Body r))
            (S (length (chunks (Body r)) + nreads (Body r)))
            (closed (Body r)))).
Proof.
  intros Hc Hno. unfold CheckResponse.
  destruct ((200 <=? StatusCode r) && (StatusCode r <=? 299)) eqn:E.
  { apply andb_true_iff in E as [E1 E2]. apply Z.leb_le in E1, E2. lia. }
  unfold ReadAll. rewrite readAll_loop_spec.
  change ("" ++ fold_right String.append "" (chunks (Body r)))
    with (content (Body r)).
  destruct (EOF_to_nil _); [eexists; reflexivity|].
  unfold Unmarshal. destruct (parse (content (Body r))) as [j|err] eqn:Hp;
    [|eexists; reflexivity].
  specialize (Hno j eq_refl). simpl json_store.
  set (r0 := mkHTTPResponse _ _ _).
  assert (Hkeep : snd (stored_value (json_store j (mkAPIError the_Response [], r0)))
                  = r0).
  { destruct j as [| | | | |members]; try reflexivity.
    exact (proj1 (store_members_keeps_Response members
                    (mkAPIError the_Response []) r0 None Hno)). }
  destruct (stored_value _) as [e1 r1]; simpl in Hkeep; subst r1.
  destruct (stored_error _); eexists; reflexivity.
Qed.

End ErrorBodyRead.

(** ** The pipeline on examples *)

(** [New] over the reference model of [net/url] is [new_client]. *)
Example New_new_client :
  New no_transport "token" [] = Some (new_client no_transport "token").
Proof. reflexivity. Qed.

(** [TestNewRequest]: the URL is the base followed by [/test], and the
    token and the agent are in the headers. *)
Example NewRequest_test :
  let c := new_client no_transport "test-token" in
  match NewRequest (B := Empty_set) tt c "GET" "test" None with
  | inl req =>
      Method req = "GET"
      /\ option_map url_String (URL req)
         = Some (url_String (BaseURL c) ++ "/test")
      /\ Header_Get (Header req) "X-ChatWorkToken" = "test-token"
      /\ Header_Get (Header req) "User-Agent" = userAgent
  | inr _ => False
  end.
Proof. cbv zeta. repeat split. Qed.

(** [TestNewWithOptions]: the client given as an option is the one used. *)
Example New_with_OptionHTTPClient (custom : http_Client unit nat) :
  option_map client (New no_transport "token" [OptionHTTPClient custom])
  = Some custom.
Proof. reflexivity. Qed.

(** [TestCheckResponse]: an error body with one message. *)
Example CheckResponse_one_message :
  fst (CheckResponse
         (response 400
            ["{" ++ quoted "errors" ++ ": [" ++ quoted "Invalid request" ++ "]}"]
            None))
  = Some (mkAPIError the_Response ["Invalid request"]).
Proof. reflexivity. Qed.

(** A body may also rewrite the response through the pointer. *)
Example CheckResponse_rewrites_status :
  let r := response 400
             ["{" ++ quoted "Response" ++ ":{" ++ quoted "StatusCode" ++ ":200}}"]
             None in
  StatusCode (snd (CheckResponse r)) = 200.
Proof. reflexivity. Qed.

(** A byte of a message that belongs to no UTF-8 encoding comes out as
    U+FFFD. *)
Lemma CheckResponse_coerces_UTF8 :
  let bad := String (ascii_of_nat 255) "" in
  let r := response 400
             ["{" ++ quoted "errors" ++ ":[" ++ quoted ("a" ++ bad ++ "b")
              ++ "]}"] None in
  fst (CheckResponse r)
  = Some (mkAPIError the_Response ["a" ++ encode_rune RuneError ++ "b"]).
Proof. reflexivity. Qed.

(** A body that is valid JSON but no object is a type mismatch, reported
    with the name of the value the body holds. *)
Lemma CheckResponse_wrong_type :
  fst (CheckResponse (response 400 ["[1]"] None))
  = Some (mkAPIError the_Response
            ["Failed to parse error response: json: cannot unmarshal array into Go value of type chatwork.APIError"]).
Proof. reflexivity. Qed.

Lemma CheckResponse_invalid_JSON_witness :
  let r := response 500 ["<html>"] None in
  let err :=
    SyntaxError "invalid character '<' looking for beginning of value" in
  ~ (200 <= StatusCode r <= 299)
  /\ rerr (Body r) = None
  /\ parse (content (Body r)) = inr err
  /\ CheckResponse r
     = (Some (mkAPIError the_Response
                ["Failed to parse error response: invalid character '<' looking for beginning of value"]),
        mkHTTPResponse 500 (mkBody [] None 2 false) None)
  /\ Valid (content (Body r)) = false
  /\ (content (Body r) = ""
      -> Error_string err = "unexpected end of JSON input").
Proof.
  cbv zeta.
  assert (H1 : ~ (200 <= StatusCode (response 500 ["<html>"] None) <= 299))
    by (simpl; lia).
  split; [exact H1|]. split; [reflexivity|]. split; [reflexivity|].
  exact (CheckResponse_invalid_JSON (response 500 ["<html>"] None)
           (SyntaxError "invalid character '<' looking for beginning of value")
           H1 eq_refl eq_refl).
Defined.

(** C2 as the spec has it, for every body that is not valid JSON, fails
    when the body cannot be read to its end: [io.ReadAll] returns its error,
    the guard [err == nil] skips [json.Unmarshal] and with it the synthetic
    message.  A gateway answers 502 and the connection breaks inside the
    page: the bytes read are not valid JSON, and the error that
    [CheckResponse] returns has an empty message list. *)
Lemma CheckResponse_unread_body_no_message :
  let r := mkHTTPResponse (Ctx := unit) 502
             (mkBody ["<html><bo"] (Some ErrUnexpectedEOF) 0 false) None in
  ~ (200 <= StatusCode r <= 299)
  /\ Valid (content (Body r)) = false
  /\ CheckResponse r
     = (Some (mkAPIError the_Response []),
        mkHTTPResponse 502 (mkBody [] (Some ErrUnexpectedEOF) 2 false) None).
Proof.
  cbv zeta. split; [simpl; lia|]. split; reflexivity.
Qed.

Lemma Error_rendering_witness :
  let req := request "POST" "/rooms" in
  let r := response 400 [] (Some req) in
  let e := mkAPIError the_Response
             ["Invalid parameters"; "Room name is required"] in
  deref r (APIError_Response e) = Some r
  /\ Request r = Some req
  /\ Error r e
     = Some "POST /rooms: 400 Invalid parameters, Room name is required".
Proof.
  cbv zeta. split; [reflexivity|]. split; [reflexivity|].
  apply (Error_rendering (response 400 [] (Some (request "POST" "/rooms")))
           (mkAPIError the_Response
              ["Invalid parameters"; "Room name is required"])
           (response 400 [] (Some (request "POST" "/rooms")))
           (request "POST" "/rooms") eq_refl eq_refl); reflexivity.
Defined.

Lemma Do_NoContent_witness :
  let resp := response 204 ["ignored"] None in
  let c := new_client (answer resp) "token" in
  let req := request "DELETE" "/rooms/1" in
  let v : dest MessageCreatedResponse Buffer :=
    dest_value (mkMessageCreatedResponse "") in
  client c (WithContext req tt) 0%nat = (inl resp, 1%nat)
  /\ StatusCode resp = StatusNoContent
  /\ exists env,
       Do c tt req v 0%nat
       = (mkDoResult (Some env) None v, 1%nat)
       /\ env = newResponse (with_Body resp (Close (Body resp)))
       /\ chunks (Body (Response_http env)) = chunks (Body resp)
       /\ nreads (Body (Response_http env)) = nreads (Body resp)
       /\ closed (Body (Response_http env)) = true.
Proof.
  cbv zeta. split; [reflexivity|]. split; [reflexivity|].
  apply Do_NoContent; reflexivity.
Defined.

Lemma Do_empty_body_witness :
  let resp := response 200 [] None in
  let c := new_client (answer resp) "token" in
  let req := request "GET" "/rooms" in
  let v : dest MessageCreatedResponse Buffer :=
    dest_value (mkMessageCreatedResponse "") in
  client c (WithContext req tt) 0%nat = (inl resp, 1%nat)
  /\ 200 <= StatusCode resp <= 299
  /\ StatusCode resp <> StatusNoContent
  /\ content (Body resp) = ""
  /\ rerr (Body resp) = None
  /\ (forall wr, v <> dest_Writer wr)
  /\ exists env,
       Do c tt req v 0%nat
       = (mkDoResult (Some env) None v, 1%nat)
       /\ StatusCode (Response_http env) = StatusCode resp.
Proof.
  cbv zeta.
  assert (H1 : 200 <= StatusCode (response 200 [] None) <= 299)
    by (simpl; lia).
  assert (H2 : StatusCode (response 200 [] None) <> StatusNoContent)
    by discriminate.
  assert (H3 : forall wr : Buffer,
             @dest_value MessageCreatedResponse Buffer
               (mkMessageCreatedResponse "") <> dest_Writer wr)
    by discriminate.
  split; [reflexivity|]. split; [exact H1|]. split; [exact H2|].
  split; [reflexivity|]. split; [reflexivity|]. split; [exact H3|].
  apply Do_empty_body; [reflexivity | exact H1 | exact H2
                                  | reflexivity | reflexivity | exact H3].
Defined.

Lemma processResponseBody_Writer_witness :
  let body := mkBody ["ab"; "cd"] None 0 false in
  let body' := mkBody [] None 3 false in
  Writer_contract Buffer
  /\ Copy (mkBuffer "") body = (mkBuffer "abcd", 4, None, body')
  /\ @processResponseBody MessageCreatedResponse Buffer _ _
       (dest_Writer (mkBuffer "")) body
     = (None, dest_Writer (mkBuffer "abcd"), body')
  /\ (@None error = None ->
      received (mkBuffer "abcd") = received (mkBuffer "") ++ content body
      /\ consumed body' = true).
Proof.
  cbv zeta. split; [exact Buffer_contract|]. split; [reflexivity|].
  apply (processResponseBody_Writer (T := MessageCreatedResponse)
           (mkBuffer "") (mkBuffer "abcd") (mkBody ["ab"; "cd"] None 0 false)
           (mkBody [] None 3 false) 4 None Buffer_contract).
  reflexivity.
Defined.

Lemma Do_closes_body_witness :
  let resp := response 404 ["not here"] None in
  let c := new_client (answer resp) "token" in
  let req := request "GET" "/rooms/0" in
  let v : dest MessageCreatedResponse Buffer := dest_nil in
  client c (WithContext req tt) 0%nat = (inl resp, 1%nat)
  /\ exists env err v',
       Do c tt req v 0%nat = (mkDoResult (Some env) err v', 1%nat)
       /\ closed (Body (Response_http env)) = true
       /\ (200 <= StatusCode resp <= 299 ->
           StatusCode resp = StatusNoContent \/ v = dest_nil ->
           chunks (Body (Response_http env)) = chunks (Body resp)
           /\ nreads (Body (Response_http env))
              = nreads (Body resp)).
Proof.
  cbv zeta. split; [reflexivity|].
  apply Do_closes_body. reflexivity.
Defined.

(** C9 fails as it stands: a response with status 200 and a body of two
    bytes, and a nil destination.  [Do] returns with the body closed and
    both bytes still unread. *)
Lemma Do_leaves_body_unread :
  let resp := response 200 ["{}"] None in
  let c := new_client (answer resp) "token" in
  let v : dest MessageCreatedResponse Buffer := dest_nil in
  exists env,
    fst (Do c tt (request "GET" "/rooms") v 0%nat)
    = mkDoResult (Some env) None v
    /\ consumed (Body (Response_http env)) = false
    /\ content (Body (Response_http env)) = "{}"
    /\ nreads (Body (Response_http env)) = 0%nat
    /\ closed (Body (Response_http env)) = true.
Proof. cbv zeta. eexists. repeat split. Qed.

Lemma builders_set_headers_witness :
  let c := new_client no_transport "token" in
  let req :=
    set_headers c None
      (mkRequest "GET"
         (Some (GoURL.mkURL "https" "api.chatwork.com" "/v2/test" "" ""))
         ∅ None tt) in
  let req' :=
    set_headers c (Some "application/x-www-form-urlencoded")
      (mkRequest "POST"
         (Some (GoURL.mkURL "https" "api.chatwork.com" "/rooms/1/messages" "" ""))
         ∅ (Some "body=hi") tt) in
  (NewRequestWithContext (B := Empty_set) c (Some tt) "GET" "test" None
   = inl req
   /\ headers_set c "application/json" false req)
  /\ (NewFormRequestWithContext c (Some tt) "POST" "rooms/1/messages"
        (Some (Some (mkMessageCreateParams "hi" false)))
      = inl req'
      /\ headers_set c "application/x-www-form-urlencoded" true req').
Proof.
  cbv zeta. split; (split; [reflexivity|]).
  - apply (proj1 (builders_set_headers (B := Empty_set)
                    (new_client no_transport "token") (Some tt) "GET" "test"
                    None _)).
    reflexivity.
  - apply (proj2 (builders_set_headers
                    (new_client no_transport "token") (Some tt) "POST"
                    "rooms/1/messages"
                    (Some (Some (mkMessageCreateParams "hi" false))) _)).
    reflexivity.
Defined.

(** C7, at the inputs where the code departs from it.  In form mode the
    path is resolved against the base as a relative reference: with the
    default base the segment [v2] of the base is replaced, where JSON mode
    keeps it; and with a base that ends with a slash the path without a
    leading slash and the path with one give different URLs. *)
Theorem NewFormRequest_resolves_reference :
  let c := new_client no_transport "token" in
  let c' := mkClient no_transport
              (GoURL.mkURL "https" "example.com" "/api/v2/" "" "")
              userAgent "token" in
  let params := Some (Some (mkMessageCreateParams "hi" false)) in
  final_URL (NewFormRequestWithContext c (Some tt) "POST"
               "rooms/1/messages" params)
  = Some "https://api.chatwork.com/rooms/1/messages"
  /\ final_URL (NewRequestWithContext (B := Empty_set) c (Some tt)
                  "POST" "rooms/1/messages" None)
     = Some "https://api.chatwork.com/v2/rooms/1/messages"
  /\ final_URL (NewFormRequestWithContext c' (Some tt) "POST"
                  "rooms" params)
     = Some "https://example.com/api/v2/rooms"
  /\ final_URL (NewFormRequestWithContext c' (Some tt) "POST"
                  "/rooms" params)
     = Some "https://example.com/rooms".
Proof. cbv zeta. repeat split. Qed.

(** ** The further properties on examples *)

Lemma Do_error_status_witness :
  let resp := response 404 ["no such room"] None in
  let c := new_client (answer resp) "token" in
  let req := request "GET" "/rooms/0" in
  let v : dest MessageCreatedResponse Buffer := dest_Writer (mkBuffer "") in
  client c (WithContext req tt) 0%nat = (inl resp, 1%nat)
  /\ ~ (200 <= StatusCode resp <= 299)
  /\ exists e r',
       CheckResponse resp = (Some e, r')
       /\ Do c tt req v 0%nat
          = (mkDoResult (Some (newResponse (with_Body r' (Close (Body r')))))
               (Some (err_API e)) v, 1%nat).
Proof.
  cbv zeta.
  assert (H1 : ~ (200 <= StatusCode (response 404 ["no such room"] None) <= 299))
    by (simpl; lia).
  split; [reflexivity|]. split; [exact H1|].
  apply (Do_error_status (new_client (answer (response 404 ["no such room"] None))
                            "token") tt (request "GET" "/rooms/0"));
    [reflexivity | exact H1].
Defined.

Lemma CheckResponse_read_error_witness :
  let e := OtherError "connection reset by peer" in
  let r := mkHTTPResponse (Ctx := unit) 502
             (mkBody ["{"] (Some e) 0 false) None in
  ~ (200 <= StatusCode r <= 299)
  /\ rerr (Body r) = Some e
  /\ is_EOF e = false
  /\ exists r',
       CheckResponse r = (Some (mkAPIError the_Response []), r')
       /\ StatusCode r' = StatusCode r
       /\ Request r' = Request r
       /\ chunks (Body r') = [].
Proof.
  cbv zeta.
  assert (H1 : ~ (200 <= 502 <= 299)) by lia.
  split; [exact H1|]. split; [reflexivity|]. split; [reflexivity|].
  apply (CheckResponse_read_error
           (mkHTTPResponse (Ctx := unit) 502
              (mkBody ["{"] (Some (OtherError "connection reset by peer")) 0 false)
              None)
           (OtherError "connection reset by peer") H1 eq_refl eq_refl).
Defined.

Lemma CheckResponse_server_messages_witness :
  let body := "{" ++ quoted "code" ++ ":5," ++ quoted "errors" ++ ":["
              ++ quoted "Invalid parameters" ++ ","
              ++ quoted "Room name is required" ++ "]}" in
  let r := response 400 [body] None in
  let msgs := ["Invalid parameters"; "Room name is required"] in
  ~ (200 <= StatusCode r <= 299)
  /\ rerr (Body r) = None
  /\ parse (content (Body r))
     = inl (JObj ([("code", JNum "5")]
                  ++ ("errors", JArr (map JStr msgs)) :: [])%list)
  /\ field_matches "errors" "errors" = true
  /\ forallb other_member [("code", JNum "5")] = true
  /\ forallb other_member [] = true
  /\ exists r',
       CheckResponse r = (Some (mkAPIError the_Response msgs), r')
       /\ StatusCode r' = StatusCode r.
Proof.
  cbv zeta.
  assert (H1 : ~ (200 <= 400 <= 299)) by lia.
  split; [exact H1|]. split; [reflexivity|]. split; [reflexivity|].
  split; [reflexivity|]. split; [reflexivity|]. split; [reflexivity|].
  apply (CheckResponse_server_messages
           (response 400
              ["{" ++ quoted "code" ++ ":5," ++ quoted "errors" ++ ":["
               ++ quoted "Invalid parameters" ++ ","
               ++ quoted "Room name is required" ++ "]}"] None)
           [("code", JNum "5")] [] "errors"
           ["Invalid parameters"; "Room name is required"] H1);
    reflexivity.
Defined.

Lemma Do_blank_body_witness :
  let resp := response 200 [" "; String (ascii_of_nat 10) ""] None in
  let c := new_client (answer resp) "token" in
  let req := request "GET" "/rooms" in
  let v : dest MessageCreatedResponse Buffer :=
    dest_value (mkMessageCreatedResponse "") in
  client c (WithContext req tt) 0%nat = (inl resp, 1%nat)
  /\ 200 <= StatusCode resp <= 299
  /\ StatusCode resp <> StatusNoContent
  /\ nonEmpty (content (Body resp)) = false
  /\ rerr (Body resp) = None
  /\ v <> dest_nil
  /\ (forall wr, v <> dest_Writer wr)
  /\ exists env,
       Do c tt req v 0%nat = (mkDoResult (Some env) None v, 1%nat)
       /\ chunks (Body (Response_http env)) = []
       /\ closed (Body (Response_http env)) = true.
Proof.
  cbv zeta.
  assert (H1 : 200 <= 200 <= 299) by lia.
  assert (H2 : (200 : Z) <> StatusNoContent) by discriminate.
  assert (H3 : @dest_value MessageCreatedResponse Buffer
                 (mkMessageCreatedResponse "") <> dest_nil) by discriminate.
  assert (H4 : forall wr : Buffer,
             @dest_value MessageCreatedResponse Buffer
               (mkMessageCreatedResponse "") <> dest_Writer wr)
    by discriminate.
  split; [reflexivity|]. split; [exact H1|]. split; [exact H2|].
  split; [reflexivity|]. split; [reflexivity|]. split; [exact H3|].
  split; [exact H4|].
  apply (Do_blank_body
           (new_client
              (answer (response 200 [" "; String (ascii_of_nat 10) ""] None))
              "token") tt (request "GET" "/rooms")
           (dest_value (mkMessageCreatedResponse "")) 0%nat 1%nat
           (response 200 [" "; String (ascii_of_nat 10) ""] None));
    [reflexivity | exact H1 | exact H2 | reflexivity | reflexivity
    | exact H3 | exact H4].
Defined.

Lemma New_options_witness :
  let custom := answer (response 204 [] None) in
  let l := [inr true; inl custom; inr false] in
  let c := new_client custom "token" in
  New no_transport "token" (map as_ClientOption l) = Some c
  /\ token c = "token"
  /\ UserAgent c = userAgent
  /\ url_Parse defaultBaseURL = inl (BaseURL c)
  /\ (forall l1 tr ds, l = (l1 ++ inl tr :: map inr ds)%list -> client c = tr)
  /\ (forall ds, l = map inr ds -> client c = no_transport).
Proof.
  cbv zeta.
  assert (HN : New no_transport "token"
                 (map as_ClientOption
                    [inr true; inl (answer (response 204 [] None)); inr false])
               = Some (new_client (answer (response 204 [] None)) "token"))
    by reflexivity.
  split; [exact HN|].
  exact (New_options no_transport "token"
           [inr true; inl (answer (response 204 [] None)); inr false]
           (new_client (answer (response 204 [] None)) "token") HN).
Defined.

Lemma NewRequestWithContext_base_slash_witness :
  let c1 := mkClient no_transport
              (GoURL.mkURL "https" "example.com" "/api/" "" "")
              userAgent "token" in
  let c2 := mkClient no_transport
              (GoURL.mkURL "https" "example.com" "/api" "" "")
              userAgent "token" in
  url_String (BaseURL c1) = url_String (BaseURL c2) ++ "/"
  /\ UserAgent c1 = UserAgent c2
  /\ token c1 = token c2
  /\ NewRequestWithContext (B := Empty_set) c1 (Some tt) "GET" "rooms" None
     = NewRequestWithContext (B := Empty_set) c2 (Some tt) "GET" "rooms" None.
Proof.
  cbv zeta. split; [reflexivity|]. split; [reflexivity|]. split; [reflexivity|].
  apply (NewRequestWithContext_base_slash (B := Empty_set)
           (mkClient no_transport
              (GoURL.mkURL "https" "example.com" "/api/" "" "") userAgent "token")
           (mkClient no_transport
              (GoURL.mkURL "https" "example.com" "/api" "" "") userAgent "token"));
    reflexivity.
Defined.

Lemma Quote_after_Get_witness :
  let message :=
    "{" ++ quoted "message_id" ++ ":" ++ quoted "7" ++ ","
    ++ quoted "account" ++ ":{" ++ quoted "account_id" ++ ":12},"
    ++ quoted "body" ++ ":" ++ quoted "hello" ++ ","
    ++ quoted "send_time" ++ ":99}" in
  let created := "{" ++ quoted "message_id" ++ ":" ++ quoted "8" ++ "}" in
  let c := new_client
             (answers [response 200 [message] None;
                       response 200 [created] None]) "token" in
  exists m resp,
    MessagesService.Get tt c tt 5 "7" 0%nat = ((Some m, resp, None), 1%nat)
    /\ MessagesService.quotedBody m "me too"
       = "[qt][qtmeta aid=12 time=99]hello[/qt]"
         ++ String (ascii_of_nat 10) "" ++ "me too"
    /\ exists message,
         Some m = Some message
         /\ MessagesService.Quote tt c tt 5 "7" "me too" 0%nat
            = Some (Create tt c tt 5
                      (Some {| Params_Body :=
                                 MessagesService.quotedBody message "me too";
                               SelfUnread := false |}) 1%nat).
Proof.
  cbv zeta. eexists. eexists.
  match goal with
  | |- ?L = ?R /\ _ => assert (HG : L = R) by reflexivity
  end.
  split; [exact HG|]. split; [reflexivity|].
  exact (Quote_after_Get tt _ tt 5 "7" "me too" 0%nat 1%nat _ _ None HG).
Defined.

Lemma GetByRoom_filters_witness :
  let task (id room : string) :=
    "{" ++ quoted "task_id" ++ ":" ++ id ++ "," ++ quoted "room" ++ ":{"
    ++ quoted "room_id" ++ ":" ++ room ++ "}}" in
  let body := "[" ++ task "1" "5" ++ "," ++ task "2" "7" ++ ","
              ++ task "3" "5" ++ "]" in
  let c := new_client (answers [response 200 [body] None]) "token" in
  exists all resp,
    MyTasksService.List tt c tt None 0%nat
    = Some ((Some all, resp, None), 1%nat)
    /\ Forall (fun task => task <> None) all
    /\ map (option_map MyTask.TaskID) (List.filter (in_room 5) all)
       = [Some 1; Some 3]
    /\ MyTasksService.GetByRoom tt c tt 5 0%nat
       = Some ((Some (List.filter (in_room 5) all), resp, None), 1%nat).
Proof.
  cbv zeta. eexists. eexists.
  match goal with
  | |- ?L = ?R /\ ?F /\ ?M /\ ?G =>
      assert (HL : L = R) by reflexivity;
      assert (HF : F) by (repeat constructor; discriminate)
  end.
  split; [exact HL|]. split; [exact HF|]. split; [reflexivity|].
  exact (proj1 (GetByRoom_filters tt _ tt 5 0%nat 1%nat _ _ None HL) HF).
Defined.

Lemma Do_into_Buffer_witness :
  let resp := response 200 ["ab"; ""; "cd"] None in
  let c := new_client (answer resp) "token" in
  let req := request "GET" "/rooms/1/files/2" in
  client c (WithContext req tt) 0%nat = (inl resp, 1%nat)
  /\ 200 <= StatusCode resp <= 299
  /\ StatusCode resp <> StatusNoContent
  /\ exists env,
       Do (T := MessageCreatedResponse) c tt req
         (dest_Writer (mkBuffer "xy")) 0%nat
       = (mkDoResult (Some env) None (dest_Writer (mkBuffer "xyabcd")), 1%nat)
       /\ chunks (Body (Response_http env)) = []
       /\ closed (Body (Response_http env)) = true.
Proof.
  cbv zeta.
  assert (H1 : 200 <= 200 <= 299) by lia.
  assert (H2 : (200 : Z) <> StatusNoContent) by discriminate.
  split; [reflexivity|]. split; [exact H1|]. split; [exact H2|].
  apply (Do_into_Buffer (T := MessageCreatedResponse)
           (new_client (answer (response 200 ["ab"; ""; "cd"] None)) "token")
           tt (request "GET" "/rooms/1/files/2") (mkBuffer "xy") 0%nat 1%nat
           (response 200 ["ab"; ""; "cd"] None) eq_refl H1 H2).
Defined.

Lemma CheckResponse_reads_body_witness :
  let r := mkHTTPResponse (Ctx := unit) 503
             (mkBody ["<html>"; "busy"; "</html>"] None 0 false) None in
  ~ (200 <= StatusCode r <= 299)
  /\ (forall j, parse (content (Body r)) = inl j -> names_Response j = false)
  /\ exists e,
       CheckResponse r
       = (Some e, with_Body r (mkBody [] None 4 false)).
Proof.
  cbv zeta.
  assert (H1 : ~ (200 <= 503 <= 299)) by lia.
  assert (H2 : forall j,
             parse (content (mkBody ["<html>"; "busy"; "</html>"] None 0 false))
             = inl j -> names_Response j = false)
    by (intros j Hj; vm_compute in Hj; discriminate).
  split; [exact H1|]. split; [exact H2|].
  exact (CheckResponse_reads_body
           (mkHTTPResponse (Ctx := unit) 503
              (mkBody ["<html>"; "busy"; "</html>"] None 0 false) None) H1 H2).
Defined.
